(** * giva_urlshortener: the URL shortening service of [src/index.ts]

    A shallow embedding of the three request handlers of the Express
    application ([POST /shorten], [GET /:code], [GET /stats/:code]), of the
    [urls] table they work on and of [generateShortCode], followed by the
    properties of the mapping logic.

    Conventions of the embedding.
    - A JavaScript string is a [string]: the sequence of the bytes of its
      UTF-8 encoding, which is what [Hash.update] feeds to MD5 and what the
      [TEXT] and [VARCHAR] columns compare.  PostgreSQL takes no text with
      a zero byte, and the bound of a [VARCHAR(n)] counts characters, that
      is the bytes of the encoding that are not continuation bytes.
    - A number that the code uses as an integer is a [Z]; the ranges of the
      [INTEGER] and [SERIAL] columns are written out where a statement can
      leave them.
    - A timestamp is a [Z] (a reading of the database clock).
    - The statements a handler sends through [client.query] are the events of
      a small free monad, so that a handler can be run alone or interleaved
      with other handlers on the same store. *)

From Stdlib Require Import ZArith List String Ascii Bool Lia Permutation.
Import ListNotations.

Local Open Scope string_scope.
Local Open Scope Z_scope.

(** ** MD5, as computed by [crypto.createHash('md5')] (RFC 1321) *)

Module MD5.

Definition mask32 : Z := 4294967295.

Definition w32 (x : Z) : Z := Z.land x mask32.

Definition add32 (a b : Z) : Z := w32 (a + b).

Definition not32 (x : Z) : Z := Z.lxor (w32 x) mask32.

Definition rotl32 (x s : Z) : Z :=
  w32 (Z.lor (Z.shiftl x s) (Z.shiftr (w32 x) (32 - s))).

(** [K i = floor (2^32 * |sin (i + 1)|)]. *)
Definition K : list Z :=
  [ 3614090360; 3905402710; 606105819; 3250441966;
    4118548399; 1200080426; 2821735955; 4249261313;
    1770035416; 2336552879; 4294925233; 2304563134;
    1804603682; 4254626195; 2792965006; 1236535329;
    4129170786; 3225465664; 643717713; 3921069994;
    3593408605; 38016083; 3634488961; 3889429448;
    568446438; 3275163606; 4107603335; 1163531501;
    2850285829; 4243563512; 1735328473; 2368359562;
    4294588738; 2272392833; 1839030562; 4259657740;
    2763975236; 1272893353; 4139469664; 3200236656;
    681279174; 3936430074; 3572445317; 76029189;
    3654602809; 3873151461; 530742520; 3299628645;
    4096336452; 1126891415; 2878612391; 4237533241;
    1700485571; 2399980690; 4293915773; 2240044497;
    1873313359; 4264355552; 2734768916; 1309151649;
    4149444226; 3174756917; 718787259; 3951481745 ].

(** Per-round left rotations. *)
Definition S : list Z :=
  [ 7; 12; 17; 22; 7; 12; 17; 22; 7; 12; 17; 22; 7; 12; 17; 22;
    5; 9; 14; 20; 5; 9; 14; 20; 5; 9; 14; 20; 5; 9; 14; 20;
    4; 11; 16; 23; 4; 11; 16; 23; 4; 11; 16; 23; 4; 11; 16; 23;
    6; 10; 15; 21; 6; 10; 15; 21; 6; 10; 15; 21; 6; 10; 15; 21 ].

Record state := mkState { sa : Z; sb : Z; sc : Z; sd : Z }.

Definition init : state :=
  mkState 1732584193 4023233417 2562383102 271733878.

(** The auxiliary function of operation [i] and the index of the message
    word it reads. *)
Definition mix (i : nat) (b c d : Z) : Z * nat :=
  if (i <? 16)%nat then
    (Z.lor (Z.land b c) (Z.land (not32 b) d), i)
  else if (i <? 32)%nat then
    (Z.lor (Z.land d b) (Z.land (not32 d) c), ((5 * i + 1) mod 16)%nat)
  else if (i <? 48)%nat then
    (Z.lxor (Z.lxor b c) d, ((3 * i + 5) mod 16)%nat)
  else
    (Z.lxor c (Z.lor b (not32 d)), ((7 * i) mod 16)%nat).

Definition operation (M : list Z) (st : state) (i : nat) : state :=
  let '(f, g) := mix i (sb st) (sc st) (sd st) in
  let t := add32 (add32 (add32 f (sa st)) (nth i K 0)) (nth g M 0) in
  mkState (sd st) (add32 (sb st) (rotl32 t (nth i S 0))) (sb st) (sc st).

Definition compress (st : state) (M : list Z) : state :=
  let st' := fold_left (operation M) (seq 0 64) st in
  mkState (add32 (sa st) (sa st')) (add32 (sb st) (sb st'))
          (add32 (sc st) (sc st')) (add32 (sd st) (sd st')).

(** Little-endian bytes of a word and back. *)
Definition le_bytes (n : nat) (x : Z) : list Z :=
  map (fun i => Z.land (Z.shiftr x (8 * Z.of_nat i)) 255) (seq 0 n).

Fixpoint le_word (bs : list Z) : Z :=
  match bs with
  | [] => 0
  | b :: bs' => b + 256 * le_word bs'
  end.

Fixpoint words (fuel : nat) (bs : list Z) : list Z :=
  match fuel with
  | O => []
  | Datatypes.S fuel' =>
      match bs with
      | [] => []
      | _ => le_word (firstn 4 bs) :: words fuel' (skipn 4 bs)
      end
  end.

Fixpoint blocks (fuel : nat) (bs : list Z) : list (list Z) :=
  match fuel with
  | O => []
  | Datatypes.S fuel' =>
      match bs with
      | [] => []
      | _ => words 16 (firstn 64 bs) :: blocks fuel' (skipn 64 bs)
      end
  end.

(** The message followed by the bit [1], zeros up to 56 modulo 64 bytes
    and the length in bits over 64 bits. *)
Definition pad (msg : list Z) : list Z :=
  let len := Z.of_nat (List.length msg) in
  let zeros := Z.to_nat ((55 - len) mod 64) in
  msg ++ 128 :: repeat 0 zeros ++ le_bytes 8 ((8 * len) mod 2 ^ 64).

Definition digest_state (msg : list Z) : state :=
  let padded := pad msg in
  fold_left compress (blocks (List.length padded) padded) init.

(** The 16 bytes of the digest. *)
Definition digest (msg : list Z) : list Z :=
  let st := digest_state msg in
  le_bytes 4 (sa st) ++ le_bytes 4 (sb st)
    ++ le_bytes 4 (sc st) ++ le_bytes 4 (sd st).

Definition bytes_of_string (s : string) : list Z :=
  map (fun c => Z.of_N (N_of_ascii c)) (list_ascii_of_string s).

Definition hex_digit (n : Z) : ascii :=
  nth (Z.to_nat n)
      (list_ascii_of_string "0123456789abcdef") "0"%char.

Fixpoint hex (bs : list Z) : string :=
  match bs with
  | [] => EmptyString
  | b :: bs' =>
      String (hex_digit (Z.shiftr b 4))
             (String (hex_digit (Z.land b 15)) (hex bs'))
  end.

End MD5.

(** ** [generateShortCode] (index.ts, lines 49-53) *)

(** The hash object of Node's [crypto]: [createHash] makes a fresh object,
    [update] appends to what it has been fed, [digest('hex')] renders the
    MD5 of all of it in lower-case hexadecimal. *)
Module Crypto.

Record Hash := mkHash { fed : string }.

Definition createHash_md5 : Hash := mkHash "".

Definition update (h : Hash) (data : string) : Hash :=
  mkHash (fed h ++ data).

Definition digest_hex (h : Hash) : string :=
  MD5.hex (MD5.digest (MD5.bytes_of_string (fed h))).

End Crypto.

(** [s.substring(start, end)] for integer arguments: both indices are
    clamped to [0 .. s.length] and swapped when [start > end]. *)
Definition js_substring (s : string) (start end_ : Z) : string :=
  let len := Z.of_nat (String.length s) in
  let fs := Z.min (Z.max start 0) len in
  let fe := Z.min (Z.max end_ 0) len in
  let from := Z.min fs fe in
  let to := Z.max fs fe in
  String.substring (Z.to_nat from) (Z.to_nat (to - from)) s.

(** [length] is the optional second parameter, 7 when it is left out. *)
Definition generateShortCode (url : string) (length : option Z) : string :=
  let length := match length with Some n => n | None => 7 end in
  let hash :=
    Crypto.digest_hex (Crypto.update Crypto.createHash_md5 url) in
  js_substring hash 0 length.
#[global] Arguments generateShortCode : simpl never.

(** ** The [urls] table (index.ts, lines 26-34) *)

Record UrlRow := mkRow {
  id : Z;                       (* SERIAL PRIMARY KEY *)
  original_url : string;        (* TEXT NOT NULL *)
  short_code : string;          (* VARCHAR(10) NOT NULL UNIQUE *)
  alias : option string;        (* VARCHAR(30) UNIQUE, NULL is None *)
  created_at : Z;               (* DEFAULT CURRENT_TIMESTAMP *)
  access_count : Z;             (* INTEGER DEFAULT 0 *)
  last_accessed : option Z      (* NULL until the first access *)
}.

(** The store: the rows in the order a scan of the table meets them, and
    the sequence behind the [SERIAL] column.  An [INSERT] adds its row after
    the others and an [UPDATE] writes the new version of a row after all the
    rows it left alone; a [SELECT] without [ORDER BY] is taken to return the
    rows it selects in this order.  SQL leaves that order open: where a
    lookup can select several rows, the properties below either hold for
    whichever of them comes first or ask for the row to be the only one. *)
Record Db := mkDb {
  rows : list UrlRow;
  urls_id_seq : Z
}.

Definition empty_db : Db := mkDb [] 1.

(** Largest value of an [INTEGER] column and of a [SERIAL] sequence. *)
Definition INT_MAX : Z := 2147483647.

Inductive DbError :=
| UniqueViolation       (* duplicate key value violates unique constraint *)
| ValueTooLong          (* value too long for type character varying(n) *)
| NumericOutOfRange     (* integer out of range *)
| SequenceLimit         (* nextval: reached maximum value of sequence *)
| InvalidText.          (* invalid byte sequence for encoding "UTF8": 0x00 *)

Inductive Result (A : Type) :=
| Ok (a : A)
| Err (e : DbError).
Arguments Ok {A} a.
Arguments Err {A} e.

(** A text parameter with a zero byte is refused when the statement is
    bound, whatever the statement. *)
Definition has_nul (s : string) : bool :=
  existsb (Ascii.eqb zero) (list_ascii_of_string s).

(** The bytes [10xxxxxx] continue a character of the UTF-8 encoding. *)
Definition is_continuation (c : ascii) : bool :=
  let n := N_of_ascii c in (128 <=? n)%N && (n <? 192)%N.

(** The number of characters of a text, which [VARCHAR(n)] bounds. *)
Fixpoint char_length (s : string) : nat :=
  match s with
  | EmptyString => O
  | String c s' =>
      if is_continuation c then char_length s'
      else Datatypes.S (char_length s')
  end.

(** [alias = $1] in a [WHERE] clause: never true of a NULL alias. *)
Definition alias_is (k : string) (r : UrlRow) : bool :=
  match alias r with
  | Some a => String.eqb a k
  | None => false
  end.

(** The columns [GET /stats/:code] selects. *)
Record Stats := mkStats {
  st_original_url : string;
  st_short_code : string;
  st_alias : option string;
  st_created_at : Z;
  st_access_count : Z;
  st_last_accessed : option Z
}.

Definition stats_of (r : UrlRow) : Stats :=
  mkStats (original_url r) (short_code r) (alias r)
          (created_at r) (access_count r) (last_accessed r).

(** The statements the handlers send, indexed by the type of their rows. *)
Inductive Sql : Type -> Type :=
| SelectCodeAliasByUrl (url : string) : Sql (list (string * option string))
    (* SELECT short_code, alias FROM urls WHERE original_url = $1 *)
| SelectIdByAlias (a : string) : Sql (list Z)
    (* SELECT id FROM urls WHERE alias = $1 *)
| InsertUrl (url code : string) (a : option string)
    : Sql (list (string * option string))
    (* INSERT INTO urls (original_url, short_code, alias)
       VALUES ($1, $2, $3) RETURNING short_code, alias *)
| SelectIdUrlByCode (code : string) : Sql (list (Z * string))
    (* SELECT id, original_url FROM urls
       WHERE alias = $1 OR short_code = $1 *)
| UpdateAccess (i : Z) : Sql unit
    (* UPDATE urls SET access_count = access_count + 1,
       last_accessed = CURRENT_TIMESTAMP WHERE id = $1 *)
| SelectStatsByCode (code : string) : Sql (list Stats).
    (* SELECT original_url, short_code, alias, created_at, access_count,
       last_accessed FROM urls WHERE alias = $1 OR short_code = $1 *)

Definition select_code_alias_by_url (url : string) (db : Db)
  : list (string * option string) :=
  map (fun r => (short_code r, alias r))
      (filter (fun r => String.eqb (original_url r) url) (rows db)).

Definition select_id_by_alias (a : string) (db : Db) : list Z :=
  map id (filter (alias_is a) (rows db)).

Definition select_id_url_by_code (code : string) (db : Db)
  : list (Z * string) :=
  map (fun r => (id r, original_url r))
      (filter (fun r => alias_is code r || String.eqb (short_code r) code)
              (rows db)).

Definition select_stats_by_code (code : string) (db : Db) : list Stats :=
  map stats_of
      (filter (fun r => alias_is code r || String.eqb (short_code r) code)
              (rows db)).

(** The [INSERT]: its parameters are bound, the new id is drawn from the
    sequence (and stays drawn when the statement fails afterwards), the
    [VARCHAR] bounds and the three unique indexes are checked, and the row
    is added with the column defaults.  A value longer than its
    [VARCHAR(n)] is refused.  (PostgreSQL cuts such a value instead when
    all it has in excess is spaces; the embedding takes the validation of
    line 68, which bounds the alias at 30 characters, to keep such values
    from the handler, and a short code has 7 characters.) *)
Definition insert_url (url code : string) (a : option string) (now : Z)
    (db : Db) : Result (list (string * option string)) * Db :=
  let new_id := urls_id_seq db in
  if has_nul url || has_nul code
     || match a with Some x => has_nul x | None => false end
  then (Err InvalidText, db)
  else if INT_MAX <? new_id then (Err SequenceLimit, db)
  else
    let db1 := mkDb (rows db) (new_id + 1) in
    if (10 <? char_length code)%nat
       || match a with Some x => (30 <? char_length x)%nat | None => false end
    then (Err ValueTooLong, db1)
    else if existsb (fun r => id r =? new_id) (rows db)
            || existsb (fun r => String.eqb (short_code r) code) (rows db)
            || match a with
               | Some x => existsb (alias_is x) (rows db)
               | None => false
               end
    then (Err UniqueViolation, db1)
    else (Ok [(code, a)],
          mkDb (rows db ++ [mkRow new_id url code a now 0 None])
               (new_id + 1)).

Definition touch (now : Z) (r : UrlRow) : UrlRow :=
  mkRow (id r) (original_url r) (short_code r) (alias r) (created_at r)
        (access_count r + 1) (Some now).

(** The [UPDATE]: it fails as a whole, changing nothing, when a row it
    targets cannot hold [access_count + 1]; otherwise the rows it targets
    are written anew, after the rows it leaves alone. *)
Definition update_access (i : Z) (now : Z) (db : Db) : Result unit * Db :=
  if existsb (fun r => (id r =? i) && (INT_MAX <=? access_count r)) (rows db)
  then (Err NumericOutOfRange, db)
  else (Ok tt,
        mkDb (filter (fun r => negb (id r =? i)) (rows db)
              ++ map (touch now) (filter (fun r => id r =? i) (rows db)))
             (urls_id_seq db)).

(** One statement against the store, at clock reading [now]. *)
Definition exec {A : Type} (q : Sql A) (now : Z) (db : Db) : Result A * Db :=
  match q in Sql T return Result T * Db with
  | SelectCodeAliasByUrl url =>
      if has_nul url then (Err InvalidText, db)
      else (Ok (select_code_alias_by_url url db), db)
  | SelectIdByAlias a =>
      if has_nul a then (Err InvalidText, db)
      else (Ok (select_id_by_alias a db), db)
  | InsertUrl url code a => insert_url url code a now db
  | SelectIdUrlByCode code =>
      if has_nul code then (Err InvalidText, db)
      else (Ok (select_id_url_by_code code db), db)
  | UpdateAccess i => update_access i now db
  | SelectStatsByCode code =>
      if has_nul code then (Err InvalidText, db)
      else (Ok (select_stats_by_code code db), db)
  end.

(** ** Handlers as programs over the store *)

(** A handler either answers, or is unwinding with a thrown error, or is
    waiting on [await client.query(...)]. *)
Inductive Prog (R : Type) : Type :=
| Ret (r : R)
| Throw (e : DbError)
| Query {A : Type} (q : Sql A) (k : Result A -> Prog R).
Arguments Ret {R} r.
Arguments Throw {R} e.
Arguments Query {R A} q k.

Fixpoint bind {A B : Type} (p : Prog A) (f : A -> Prog B) : Prog B :=
  match p with
  | Ret a => f a
  | Throw e => Throw e
  | Query q k => Query q (fun res => bind (k res) f)
  end.

(** [try { p } catch (err) { h err }]. *)
Fixpoint try_catch {R : Type} (p : Prog R) (h : DbError -> Prog R) : Prog R :=
  match p with
  | Ret r => Ret r
  | Throw e => h e
  | Query q k => Query q (fun res => try_catch (k res) h)
  end.

(** [await client.query(q)]: the rows, or the rejection thrown. *)
Definition client_query {A : Type} (q : Sql A) : Prog A :=
  Query q (fun res => match res with Ok a => Ret a | Err e => Throw e end).

Declare Scope prog_scope.
Delimit Scope prog_scope with prog.
Notation "x <- p ;; k" := (bind p (fun x => k))
  (at level 61, p at next level, right associativity) : prog_scope.
Notation "' pat <- p ;; k" := (bind p (fun x => match x with pat => k end))
  (at level 61, pat pattern, p at next level, right associativity) : prog_scope.

(** One statement of [p] executed on [db]. *)
Definition step {R : Type} (p : Prog R) (now : Z) (db : Db) : Prog R * Db :=
  match p with
  | Query q k => let '(res, db') := exec q now db in (k res, db')
  | _ => (p, db)
  end.

(** A handler run to its end with nothing else touching the store. *)
Fixpoint run {R : Type} (p : Prog R) (now : Z) (db : Db) : Result R * Db :=
  match p with
  | Ret r => (Ok r, db)
  | Throw e => (Err e, db)
  | Query q k => let '(res, db') := exec q now db in run (k res) now db'
  end.

(** The program points a handler can be at, whatever the other clients did
    to the store between its statements. *)
Inductive reach {R : Type} (p0 : Prog R) : Prog R -> Prop :=
| reach_start : reach p0 p0
| reach_step (p : Prog R) (now : Z) (db : Db) :
    reach p0 p -> reach p0 (fst (step p now db)).

(** Several handlers on one store: [sched] names, statement by statement,
    the client that runs next and the clock reading. *)
Fixpoint set_nth {A : Type} (n : nat) (x : A) (l : list A) : list A :=
  match l, n with
  | [], _ => []
  | _ :: l', O => x :: l'
  | y :: l', Datatypes.S n' => y :: set_nth n' x l'
  end.

Fixpoint run_schedule {R : Type} (sched : list (nat * Z))
    (clients : list (Prog R)) (db : Db) : list (Prog R) * Db :=
  match sched with
  | [] => (clients, db)
  | (c, now) :: sched' =>
      match nth_error clients c with
      | Some p =>
          let '(p', db') := step p now db in
          run_schedule sched' (set_nth c p' clients) db'
      | None => run_schedule sched' clients db
      end
  end.

(** ** The HTTP answers *)

Inductive Body :=
| ShortUrl (original_url short_url : string) (message : option string)
| ErrorBody (error : string)
| StatsBody (stats : Stats)
| Location (url : string).

Record Response := mkResponse { status : Z; body : Body }.

(** [POST /shorten]: what the handler reads from the request. *)
Record ShortenReq := mkShortenReq {
  body_url : string;              (* req.body.url *)
  query_alias : option string;    (* req.query.alias, None when undefined *)
  protocol : string;              (* req.protocol *)
  host : string                   (* req.get('host') *)
}.

(** [a || b] on a string that may be null or undefined. *)
Definition or_else (a : option string) (b : string) : string :=
  match a with
  | Some EmptyString => b
  | Some x => x
  | None => b
  end.

(** [alias || null]. *)
Definition or_null (a : option string) : option string :=
  match a with
  | Some EmptyString => None
  | other => other
  end.

Definition server_error : Response :=
  mkResponse 500 (ErrorBody "Server error").

Local Open Scope prog_scope.

(** [POST /shorten], from [pool.connect()] on (lines 84-136): the request
    has passed [validationResult] and [isValidUrl]. *)
Definition shorten (req : ShortenReq) : Prog Response :=
  let url := body_url req in
  let alias := query_alias req in
  try_catch
    (let shortCode := generateShortCode url None in
     existingUrlQuery <- client_query (SelectCodeAliasByUrl url) ;;
     match existingUrlQuery with
     | (existing_code, existingAlias) :: _ =>
         let baseUrl := protocol req ++ "://" ++ host req in
         let path := or_else existingAlias existing_code in
         Ret (mkResponse 200
                (ShortUrl url (baseUrl ++ "/" ++ path)
                          (Some "URL already exists")))
     | [] =>
         aliasTaken <-
           match or_null alias with
           | Some a =>
               aliasQuery <- client_query (SelectIdByAlias a) ;;
               Ret (match aliasQuery with [] => false | _ :: _ => true end)
           | None => Ret false
           end ;;
         if aliasTaken : bool then
           Ret (mkResponse 409 (ErrorBody "Alias already in use"))
         else
           insertQuery <- client_query (InsertUrl url shortCode (or_null alias)) ;;
           let baseUrl := protocol req ++ "://" ++ host req in
           let path := or_else alias shortCode in
           Ret (mkResponse 201 (ShortUrl url (baseUrl ++ "/" ++ path) None))
     end)
    (fun err => Ret server_error).

(** [GET /:code] (lines 140-169). *)
Definition redirect (code : string) : Prog Response :=
  try_catch
    (query <- client_query (SelectIdUrlByCode code) ;;
     match query with
     | [] => Ret (mkResponse 404 (ErrorBody "Short URL not found"))
     | (row_id, row_url) :: _ =>
         _ <- client_query (UpdateAccess row_id) ;;
         Ret (mkResponse 302 (Location row_url))
     end)
    (fun err => Ret server_error).

(** [GET /stats/:code] (lines 172-196). *)
Definition stats (code : string) : Prog Response :=
  try_catch
    (query <- client_query (SelectStatsByCode code) ;;
     match query with
     | [] => Ret (mkResponse 404 (ErrorBody "URL not found"))
     | row :: _ => Ret (mkResponse 200 (StatsBody row))
     end)
    (fun err => Ret server_error).


(** The three mapping operations behind one entry point. *)
Inductive Request :=
| PostShorten (req : ShortenReq)
| GetCode (code : string)
| GetStats (code : string).

Definition handler (rq : Request) : Prog Response :=
  match rq with
  | PostShorten req => shorten req
  | GetCode code => redirect code
  | GetStats code => stats code
  end.

Local Close Scope prog_scope.

(** ** Vocabulary of the statements *)

(** [key] is the alias or the short code of [r]. *)
Definition key_of (key : string) (r : UrlRow) : Prop :=
  alias r = Some key \/ short_code r = key.

(** The row a lookup by [key] puts first, [rows[0]] in the handlers. *)
Definition first_match (key : string) (db : Db) : option UrlRow :=
  find (fun r => alias_is key r || String.eqb (short_code r) key) (rows db).

(** The row a lookup by [url] puts first. *)
Definition first_for_url (url : string) (db : Db) : option UrlRow :=
  find (fun r => String.eqb (original_url r) url) (rows db).

(** [r] is the one record that has [key] as alias or short code. *)
Definition only_match (key : string) (r : UrlRow) (db : Db) : Prop :=
  In r (rows db) /\ key_of key r
  /\ forall x, In x (rows db) -> key_of key x -> x = r.

(** The [INSERT] a handler is about to send, if that is where it stands. *)
Definition pending_insert {R : Type} (p : Prog R)
  : option (string * string * option string) :=
  match p with
  | Query q _ =>
      match q with
      | InsertUrl url code a => Some (url, code, a)
      | _ => None
      end
  | _ => None
  end.

(** The result of the statement [p] is waiting on, were it run on [db]. *)
Definition pending_fails {R : Type} (p : Prog R) (now : Z) (db : Db)
  : option DbError :=
  match p with
  | Query q _ =>
      match fst (exec q now db) with
      | Err e => Some e
      | Ok _ => None
      end
  | _ => None
  end.

(** What the schema and the handlers keep true of the store: the primary
    key, the range of the counter, and one row per URL. *)
Record wf (db : Db) : Prop := mkWf {
  wf_ids : NoDup (map id (rows db));
  wf_counts : Forall (fun r => 0 <= access_count r <= INT_MAX) (rows db);
  wf_urls : NoDup (map original_url (rows db))
}.

(** The stores the service gets to by serving requests one after another,
    starting from the table [initializeDatabase] creates. *)
Inductive reachable : Db -> Prop :=
| reachable_empty : reachable empty_db
| reachable_request (rq : Request) (now : Z) (db : Db) :
    reachable db -> reachable (snd (run (handler rq) now db)).

(** The counter of the record with primary key [i], if there is one. *)
Definition count_of (i : Z) (db : Db) : option Z :=
  option_map access_count (find (fun r => id r =? i) (rows db)).

(** The answers of [POST /shorten]. *)
Definition created (req : ShortenReq) (path : string) : Response :=
  mkResponse 201
    (ShortUrl (body_url req)
              ((protocol req ++ "://" ++ host req) ++ "/" ++ path) None).

Definition already_exists (req : ShortenReq) (path : string) : Response :=
  mkResponse 200
    (ShortUrl (body_url req)
              ((protocol req ++ "://" ++ host req) ++ "/" ++ path)
              (Some "URL already exists")).

Definition alias_conflict : Response :=
  mkResponse 409 (ErrorBody "Alias already in use").

Definition not_found (msg : string) : Response :=
  mkResponse 404 (ErrorBody msg).

(** What the [INSERT] stage of [POST /shorten] leaves, as the handler reads
    it. *)
Definition insert_outcome (req : ShortenReq) (now : Z) (db : Db)
  : Result Response * Db :=
  let code := generateShortCode (body_url req) None in
  match insert_url (body_url req) code (or_null (query_alias req)) now db with
  | (Ok _, db') => (Ok (created req (or_else (query_alias req) code)), db')
  | (Err _, db') => (Ok server_error, db')
  end.

(** ** The program points of [POST /shorten] *)

(** The handler after its first query found no row for the url and the
    request carries an alias: waiting on the alias query. *)
Definition shorten_at_alias (req : ShortenReq) (a : string)
  : Prog Response :=
  try_catch
    (bind
       (bind (client_query (SelectIdByAlias a))
             (fun aliasQuery =>
                Ret (match aliasQuery with [] => false | _ :: _ => true end)))
       (fun aliasTaken : bool =>
          if aliasTaken then Ret alias_conflict
          else
            bind (client_query
                    (InsertUrl (body_url req)
                               (generateShortCode (body_url req) None)
                               (or_null (query_alias req))))
                 (fun _ =>
                    Ret (created req
                           (or_else (query_alias req)
                              (generateShortCode (body_url req) None))))))
    (fun _ => Ret server_error).

(** The handler after both checks passed: waiting on the [INSERT]. *)
Definition shorten_at_insert (req : ShortenReq) : Prog Response :=
  try_catch
    (bind (client_query
             (InsertUrl (body_url req)
                        (generateShortCode (body_url req) None)
                        (or_null (query_alias req))))
          (fun _ =>
             Ret (created req
                    (or_else (query_alias req)
                       (generateShortCode (body_url req) None)))))
    (fun _ => Ret server_error).

Inductive shorten_point (req : ShortenReq) : Prog Response -> Prop :=
| at_start : shorten_point req (shorten req)
| at_alias (a : string) :
    or_null (query_alias req) = Some a ->
    shorten_point req (shorten_at_alias req a)
| at_insert : shorten_point req (shorten_at_insert req)
| at_end (r : Response) : shorten_point req (Ret r).

(** ** Sample requests and stores *)

Definition req_a : ShortenReq :=
  mkShortenReq "https://example.com/a" None "http" "localhost:3000".

Definition req_b : ShortenReq :=
  mkShortenReq "https://example.com/b" None "http" "localhost:3000".

Definition req_a_foo : ShortenReq :=
  mkShortenReq "https://example.com/a" (Some "foo") "http" "localhost:3000".

Definition req_b_foo : ShortenReq :=
  mkShortenReq "https://example.com/b" (Some "foo") "http" "localhost:3000".

(** The store after [req_a] was served at time 100 on the empty table. *)
Definition db_a : Db :=
  mkDb [mkRow 1 "https://example.com/a" "cd69b81" None 100 0 None] 2.

(** A store holding another url only. *)
Definition db_a_gone : Db :=
  mkDb [mkRow 4 "https://example.com/z" "0000000" None 50 3 (Some 60)] 9.

(** The record of [req_a] after [c] visits, the last one at time 200. *)
Definition row_a_visited (c : Z) : UrlRow :=
  mkRow 1 "https://example.com/a" "cd69b81" None 100 c
        (if c =? 0 then None else Some 200).

Definition db_visited (c : Z) : Db := mkDb [row_a_visited c] 2.

(** A request for url a that asks for the short code of url b as alias. *)
Definition req_a_as_b : ShortenReq :=
  mkShortenReq "https://example.com/a" (Some "43cc12e") "http"
               "localhost:3000".

Definition row_a_as_b : UrlRow :=
  mkRow 1 "https://example.com/a" "cd69b81" (Some "43cc12e") 100 0 None.

Definition row_b : UrlRow :=
  mkRow 2 "https://example.com/b" "43cc12e" None 101 0 None.

(** ** The store and the handlers beyond one request *)

(** [GET /:code] after its lookup found the row [i], [url]: waiting on the
    [UPDATE]. *)
Definition redirect_at_update (i : Z) (url : string) : Prog Response :=
  try_catch
    (bind (client_query (UpdateAccess i))
          (fun _ => Ret (mkResponse 302 (Location url))))
    (fun _ => Ret server_error).

(** The program points of the three handlers. *)
Inductive handler_point : Prog Response -> Prop :=
| hp_shorten (req : ShortenReq) (p : Prog Response) :
    shorten_point req p -> handler_point p
| hp_redirect (code : string) : handler_point (redirect code)
| hp_update (i : Z) (url : string) : handler_point (redirect_at_update i url)
| hp_stats (code : string) : handler_point (stats code)
| hp_end (r : Response) : handler_point (Ret r).

(** The aliases in use: the non-NULL values of the [alias] column. *)
Definition aliases (l : list UrlRow) : list string :=
  flat_map (fun r => match alias r with Some a => [a] | None => [] end) l.

(** The constraints of the table: primary key drawn from the sequence,
    unique short codes, unique aliases, counters within [INTEGER] and never
    negative. *)
Record schema_ok (db : Db) : Prop := mkSchemaOk {
  ok_ids : NoDup (map id (rows db));
  ok_below : Forall (fun r => id r < urls_id_seq db) (rows db);
  ok_codes : NoDup (map short_code (rows db));
  ok_aliases : NoDup (aliases (rows db));
  ok_counts : Forall (fun r => 0 <= access_count r <= INT_MAX) (rows db)
}.

(** Every short code is the code of the url of its record. *)
Definition coded (db : Db) : Prop :=
  Forall (fun r => short_code r = generateShortCode (original_url r) None)
         (rows db).

(** [r'] is the record [r], up to its access bookkeeping. *)
Definition same_record (r r' : UrlRow) : Prop :=
  id r' = id r /\ original_url r' = original_url r
  /\ short_code r' = short_code r /\ alias r' = alias r
  /\ created_at r' = created_at r.

Definition is_hex_digit (c : ascii) : bool :=
  existsb (Ascii.eqb c) (list_ascii_of_string "0123456789abcdef").

(** Requests served one after the other, each at its clock reading. *)
Fixpoint serve_all (rqs : list (Request * Z)) (db : Db)
  : list (Result Response) * Db :=
  match rqs with
  | [] => ([], db)
  | (rq, now) :: rqs' =>
      let '(resp, db1) := run (handler rq) now db in
      let '(resps, db2) := serve_all rqs' db1 in
      (resp :: resps, db2)
  end.

(** The row [r] after [k] more visits, the last one at [t]. *)
Definition visited (r : UrlRow) (k : Z) (t : option Z) : UrlRow :=
  mkRow (id r) (original_url r) (short_code r) (alias r) (created_at r)
        (access_count r + k) t.

(** The store [db] after [k] visits of the record [r], the last one
    having left [t] as its last access: the record comes after the records
    that were not visited. *)
Definition revisited (db : Db) (r : UrlRow) (k : Z) (t : option Z) : Db :=
  mkDb (filter (fun x => negb (id x =? id r)) (rows db) ++ [visited r k t])
       (urls_id_seq db).

(** [dbcur] is [db] up to [k] visits of [r]. *)
Definition visit_store (db : Db) (r : UrlRow) (k : Z) (dbcur : Db) : Prop :=
  (k = 0 /\ dbcur = db) \/ (0 < k /\ exists t, dbcur = revisited db r k t).

(** Where a [GET /:code] whose key leads to [r], and to no other record,
    can stand. *)
Inductive visit_stage (db : Db) (r : UrlRow) : Prog Response -> Prop :=
| vs_lookup (key : string) :
    has_nul key = false -> only_match key r db ->
    visit_stage db r (redirect key)
| vs_update :
    visit_stage db r (redirect_at_update (id r) (original_url r))
| vs_done :
    visit_stage db r (Ret (mkResponse 302 (Location (original_url r)))).

(** 1 for a handler that has answered, 0 for one still at work. *)
Definition answered {R : Type} (p : Prog R) : Z :=
  match p with
  | Ret _ => 1
  | _ => 0
  end.

Definition zsum (l : list Z) : Z := fold_right Z.add 0 l.

(** 1 for a handler that has answered 201, 0 otherwise. *)
Definition answered_created (p : Prog Response) : Z :=
  match p with
  | Ret resp => if status resp =? 201 then 1 else 0
  | _ => 0
  end.

(** The number of records of [url]. *)
Definition url_count (url : string) (db : Db) : Z :=
  Z.of_nat
    (List.length (filter (fun r => String.eqb (original_url r) url) (rows db))).

(** ** The routes (index.ts, lines 66, 140, 172, 199)

    A request path is given by its segments, decoded, without a trailing
    slash; the methods are those the application registers.  Express tries
    the routes in the order of their registration, compares literal
    segments without regard to case, and lets [:code] stand for any one
    segment; a handler that answers ends the search. *)

Inductive Method := GET | POST.

Inductive Segment :=
| Lit (s : string)
| Param.

Inductive Endpoint :=
| ShortenEndpoint       (* app.post('/shorten', ...) *)
| CodeEndpoint          (* app.get('/:code', ...) *)
| StatsEndpoint         (* app.get('/stats/:code', ...) *)
| HealthEndpoint.       (* app.get('/health', ...) *)

Definition routes : list (Method * list Segment * Endpoint) :=
  [ (POST, [Lit "shorten"], ShortenEndpoint);
    (GET, [Param], CodeEndpoint);
    (GET, [Lit "stats"; Param], StatsEndpoint);
    (GET, [Lit "health"], HealthEndpoint) ].

Definition lower (c : ascii) : ascii :=
  let n := N_of_ascii c in
  if (65 <=? n)%N && (n <=? 90)%N then ascii_of_N (n + 32) else c.

Fixpoint lowercase (s : string) : string :=
  match s with
  | EmptyString => EmptyString
  | String c s' => String (lower c) (lowercase s')
  end.

(** The parameters a pattern binds on a path, if it matches. *)
Fixpoint match_path (pat : list Segment) (path : list string)
  : option (list string) :=
  match pat, path with
  | [], [] => Some []
  | Lit s :: pat', seg :: path' =>
      if String.eqb (lowercase s) (lowercase seg) then match_path pat' path'
      else None
  | Param :: pat', seg :: path' =>
      match match_path pat' path' with
      | Some ps => Some (seg :: ps)
      | None => None
      end
  | _, _ => None
  end.

Definition method_eqb (a b : Method) : bool :=
  match a, b with
  | GET, GET => true
  | POST, POST => true
  | _, _ => false
  end.

Fixpoint first_route (rs : list (Method * list Segment * Endpoint))
    (m : Method) (path : list string) : option (Endpoint * list string) :=
  match rs with
  | [] => None
  | (m', pat, ep) :: rs' =>
      if method_eqb m' m then
        match match_path pat path with
        | Some ps => Some (ep, ps)
        | None => first_route rs' m path
        end
      else first_route rs' m path
  end.

Definition dispatch (m : Method) (path : list string)
  : option (Endpoint * list string) :=
  first_route routes m path.

(** Two urls with the same short code, and the store holding the first. *)
Definition req_1548 : ShortenReq :=
  mkShortenReq "https://example.com/1548" None "http" "localhost:3000".

Definition req_2133 : ShortenReq :=
  mkShortenReq "https://example.com/2133" None "http" "localhost:3000".

Definition db_1548 : Db :=
  mkDb [mkRow 1 "https://example.com/1548" "7f17b0c" None 100 0 None] 2.

(** ** Samples with a zero byte, an alias, a shared key *)

(** The text of one zero byte, which [GET /%00] sends as key. *)
Definition nul : string := String zero EmptyString.

(** A url the URL parser accepts and the store refuses. *)
Definition url_nul : string := "https://example.com/" ++ nul.

Definition req_nul_foo : ShortenReq :=
  mkShortenReq url_nul (Some "foo") "http" "localhost:3000".

(** The store after [req_a_foo] was served at time 100 on the empty
    table, and its record after [c] visits. *)
Definition row_a_foo (c : Z) : UrlRow :=
  mkRow 1 "https://example.com/a" "cd69b81" (Some "foo") 100 c
        (if c =? 0 then None else Some 200).

Definition db_a_foo (c : Z) : Db := mkDb [row_a_foo c] 2.

(** A request for url b that asks for the short code of url a as alias,
    and the store after it and then [req_a_foo] were served. *)
Definition req_b_as_a : ShortenReq :=
  mkShortenReq "https://example.com/b" (Some "cd69b81") "http"
               "localhost:3000".

Definition row_b_as_a : UrlRow :=
  mkRow 1 "https://example.com/b" "43cc12e" (Some "cd69b81") 100 0 None.

Definition row_a_foo_second : UrlRow :=
  mkRow 2 "https://example.com/a" "cd69b81" (Some "foo") 101 0 None.


(** * Properties *)

(** ** MD5 and [generateShortCode] *)

Lemma md5_hex_length (bs : list Z) :
  String.length (MD5.hex bs) = (2 * List.length bs)%nat.
Proof.
  induction bs as [| b bs IH]; simpl; [reflexivity | rewrite IH; lia].
Qed.

Lemma md5_le_bytes_length (n : nat) (x : Z) :
  List.length (MD5.le_bytes n x) = n.
Proof. unfold MD5.le_bytes. now rewrite length_map, length_seq. Qed.

Lemma md5_digest_length (msg : list Z) :
  List.length (MD5.digest msg) = 16%nat.
Proof.
  unfold MD5.digest. rewrite !length_app, !md5_le_bytes_length. reflexivity.
Qed.

(** The test vectors of RFC 1321, section A.5. *)
Example md5_empty :
  MD5.hex (MD5.digest (MD5.bytes_of_string ""))
  = "d41d8cd98f00b204e9800998ecf8427e".
Proof. vm_compute. reflexivity. Qed.

Example md5_abc :
  MD5.hex (MD5.digest (MD5.bytes_of_string "abc"))
  = "900150983cd24fb0d6963f7d28e17f72".
Proof. vm_compute. reflexivity. Qed.

Example md5_two_blocks :
  MD5.hex (MD5.digest (MD5.bytes_of_string
    "12345678901234567890123456789012345678901234567890123456789012345678901234567890"))
  = "57edf4a22be3c955ac49da2e2107b67a".
Proof. vm_compute. reflexivity. Qed.

Lemma digest_hex_length (h : Crypto.Hash) :
  String.length (Crypto.digest_hex h) = 32%nat.
Proof.
  unfold Crypto.digest_hex.
  now rewrite md5_hex_length, md5_digest_length.
Qed.

Lemma substring_0_length (n : nat) (s : string) :
  String.length (String.substring 0 n s) = Nat.min n (String.length s).
Proof.
  revert n. induction s as [| c s IH]; intros [| n]; simpl; try reflexivity.
  now rewrite IH.
Qed.

Lemma js_substring_prefix (s : string) (n : Z) :
  js_substring s 0 n
  = String.substring 0 (Z.to_nat (Z.min (Z.max n 0) (Z.of_nat (String.length s)))) s.
Proof.
  unfold js_substring.
  replace (Z.min (Z.max 0 0) (Z.of_nat (String.length s))) with 0 by lia.
  set (fe := Z.min (Z.max n 0) (Z.of_nat (String.length s))).
  assert (0 <= fe) by (unfold fe; lia).
  rewrite Z.min_l, Z.max_r by lia.
  now rewrite Z.sub_0_r.
Qed.

Lemma generateShortCode_length (url : string) (len : Z) :
  Z.of_nat (String.length (generateShortCode url (Some len)))
  = Z.min (Z.max len 0) 32.
Proof.
  unfold generateShortCode.
  rewrite js_substring_prefix, substring_0_length, digest_hex_length.
  change (Z.of_nat 32) with 32. lia.
Qed.

(** C5, as stated, fails: asked for 40 characters (or for a negative
    number of them), [generateShortCode] gives the 32 digits of the digest
    (or none). *)
Lemma generateShortCode_length_counterexample :
  generateShortCode "" (Some 40) = "d41d8cd98f00b204e9800998ecf8427e"
  /\ Z.of_nat (String.length (generateShortCode "" (Some 40))) = 32
  /\ generateShortCode "" (Some (-1)) = "".
Proof. vm_compute. repeat split. Qed.

(** C5 (amended): for every url, the empty one included, and every length
    from 0 to 32, [generateShortCode url length] is the first [length]
    hexadecimal digits of the MD5 digest of [url], so it has exactly
    [length] characters; with the length left out it has 7. *)
Theorem generateShortCode_length_in_range (url : string) (len : Z) :
  0 <= len <= 32 ->
  Z.of_nat (String.length (generateShortCode url (Some len))) = len
  /\ generateShortCode url (Some len)
     = String.substring 0 (Z.to_nat len)
         (Crypto.digest_hex (Crypto.update Crypto.createHash_md5 url))
  /\ String.length (generateShortCode url None) = 7%nat.
Proof.
  intros Hlen. split; [| split].
  - rewrite generateShortCode_length. lia.
  - unfold generateShortCode. rewrite js_substring_prefix, digest_hex_length.
    f_equal. change (Z.of_nat 32) with 32. f_equal. lia.
  - apply Nat2Z.inj. change (generateShortCode url None)
      with (generateShortCode url (Some 7)).
    rewrite generateShortCode_length. reflexivity.
Qed.

Lemma generateShortCode_length_in_range_witness :
  0 <= 7 <= 32
  /\ Z.of_nat (String.length (generateShortCode "" (Some 7))) = 7
  /\ generateShortCode "" (Some 7)
     = String.substring 0 (Z.to_nat 7)
         (Crypto.digest_hex (Crypto.update Crypto.createHash_md5 ""))
  /\ String.length (generateShortCode "" None) = 7%nat.
Proof.
  split; [lia | apply (generateShortCode_length_in_range "" 7); lia].
Defined.

(** ** The program points of [POST /shorten], step by step *)

Lemma step_shorten (req : ShortenReq) (now : Z) (db : Db) :
  step (shorten req) now db
  = (if has_nul (body_url req) then Ret server_error
     else
       match select_code_alias_by_url (body_url req) db with
       | (code, al) :: _ => Ret (already_exists req (or_else al code))
       | [] =>
           match or_null (query_alias req) with
           | Some a => shorten_at_alias req a
           | None => shorten_at_insert req
           end
       end, db).
Proof.
  unfold shorten, step. cbn [try_catch bind client_query exec].
  destruct (has_nul (body_url req)); [reflexivity |].
  destruct (select_code_alias_by_url (body_url req) db) as [| [code al] rest].
  - cbn [try_catch bind].
    destruct (or_null (query_alias req)) eqn:E;
      unfold shorten_at_alias, shorten_at_insert; rewrite ?E; reflexivity.
  - reflexivity.
Qed.

Lemma step_shorten_at_alias (req : ShortenReq) (a : string) (now : Z)
    (db : Db) :
  step (shorten_at_alias req a) now db
  = (if has_nul a then Ret server_error
     else
       match select_id_by_alias a db with
       | [] => shorten_at_insert req
       | _ :: _ => Ret alias_conflict
       end, db).
Proof.
  unfold shorten_at_alias, step. cbn [try_catch bind client_query exec].
  destruct (has_nul a); [reflexivity |].
  destruct (select_id_by_alias a db); reflexivity.
Qed.

Lemma step_shorten_at_insert (req : ShortenReq) (now : Z) (db : Db) :
  step (shorten_at_insert req) now db
  = (match fst (insert_url (body_url req)
                  (generateShortCode (body_url req) None)
                  (or_null (query_alias req)) now db) with
     | Ok _ =>
         Ret (created req
                (or_else (query_alias req)
                   (generateShortCode (body_url req) None)))
     | Err _ => Ret server_error
     end,
     snd (insert_url (body_url req)
            (generateShortCode (body_url req) None)
            (or_null (query_alias req)) now db)).
Proof.
  unfold shorten_at_insert, step. cbn [try_catch bind client_query exec].
  destruct (insert_url _ _ _ now db) as [[rows' | e] db']; reflexivity.
Qed.

Lemma reach_shorten_point (req : ShortenReq) (p : Prog Response) :
  reach (shorten req) p -> shorten_point req p.
Proof.
  induction 1 as [| p now db _ IH]; [constructor |].
  destruct IH as [| a Ha | | r].
  - rewrite step_shorten. cbn [fst].
    destruct (has_nul (body_url req)); [constructor |].
    destruct (select_code_alias_by_url (body_url req) db) as [| [c al] ?];
      [| constructor].
    destruct (or_null (query_alias req)) eqn:E; now constructor.
  - rewrite step_shorten_at_alias. cbn [fst].
    destruct (has_nul a); [constructor |].
    destruct (select_id_by_alias a db); constructor.
  - rewrite step_shorten_at_insert. cbn [fst].
    destruct (fst (insert_url _ _ _ now db)); constructor.
  - constructor.
Qed.

Lemma insert_url_error_rows (url code : string) (a : option string)
    (now : Z) (db : Db) (e : DbError) :
  fst (insert_url url code a now db) = Err e ->
  rows (snd (insert_url url code a now db)) = rows db.
Proof.
  unfold insert_url.
  repeat match goal with
         | |- context [if ?b then _ else _] => destruct b
         end; cbn; intros H; try reflexivity; discriminate.
Qed.

Lemma pending_insert_shorten_point (req : ShortenReq) (p : Prog Response)
    (url code : string) (a : option string) :
  shorten_point req p ->
  pending_insert p = Some (url, code, a) ->
  p = shorten_at_insert req
  /\ url = body_url req
  /\ code = generateShortCode (body_url req) None
  /\ a = or_null (query_alias req).
Proof.
  intros [| a' Ha | | r] H; try discriminate H.
  unfold shorten_at_insert in H. cbn [try_catch bind client_query pending_insert] in H.
  injection H as <- <- <-. repeat split; reflexivity.
Qed.

(** ** C1: a failed [INSERT] *)

(** C1, as stated, fails: two identical requests whose first queries both
    run before either [INSERT]; the second [INSERT] violates the unique
    index on [short_code], and that client is answered 500, not the row the
    first one created. *)
Lemma shorten_race_counterexample :
  run_schedule [(0%nat, 97); (1%nat, 98); (0%nat, 100); (1%nat, 101)]
               [shorten req_a; shorten req_a] empty_db
  = ([Ret (created req_a "cd69b81"); Ret server_error],
     mkDb (rows db_a) 3)
  /\ pending_fails (shorten_at_insert req_a) 101 db_a = Some UniqueViolation.
Proof. vm_compute. split; reflexivity. Qed.

(** C1 (amended): wherever [POST /shorten] stands at its [INSERT], whatever
    other clients did to the store since its earlier queries, an [INSERT]
    that fails with a uniqueness violation ends the handler with the answer
    500 "Server error": the store is not read again, and the failed
    statement leaves the rows as they were. *)
Theorem shorten_unique_violation_is_server_error
    (req : ShortenReq) (p : Prog Response) (now : Z) (db : Db)
    (ins : string * string * option string) :
  reach (shorten req) p ->
  pending_insert p = Some ins ->
  pending_fails p now db = Some UniqueViolation ->
  fst (step p now db) = Ret server_error
  /\ rows (snd (step p now db)) = rows db.
Proof.
  intros Hreach Hins Hfail.
  destruct ins as [[url code] a].
  destruct (pending_insert_shorten_point req p url code a
              (reach_shorten_point req p Hreach) Hins) as [-> _].
  rewrite step_shorten_at_insert. cbn [fst snd].
  unfold shorten_at_insert in Hfail.
  cbn [pending_fails try_catch bind client_query exec] in Hfail.
  destruct (fst (insert_url _ _ _ now db)) as [rs | e] eqn:E;
    [discriminate |].
  split; [reflexivity |].
  eapply insert_url_error_rows; eassumption.
Qed.

Lemma shorten_unique_violation_is_server_error_witness :
  reach (shorten req_a) (fst (step (shorten req_a) 98 empty_db))
  /\ pending_insert (fst (step (shorten req_a) 98 empty_db))
     = Some ("https://example.com/a", "cd69b81", None)
  /\ pending_fails (fst (step (shorten req_a) 98 empty_db)) 101 db_a
     = Some UniqueViolation
  /\ fst (step (fst (step (shorten req_a) 98 empty_db)) 101 db_a)
     = Ret server_error
  /\ rows (snd (step (fst (step (shorten req_a) 98 empty_db)) 101 db_a))
     = rows db_a.
Proof.
  assert (Hr : reach (shorten req_a) (fst (step (shorten req_a) 98 empty_db)))
    by (apply reach_step, reach_start).
  assert (Hi : pending_insert (fst (step (shorten req_a) 98 empty_db))
               = Some ("https://example.com/a", "cd69b81", None))
    by (vm_compute; reflexivity).
  assert (Hf : pending_fails (fst (step (shorten req_a) 98 empty_db)) 101 db_a
               = Some UniqueViolation)
    by (vm_compute; reflexivity).
  split; [exact Hr | split; [exact Hi | split; [exact Hf |]]].
  exact (shorten_unique_violation_is_server_error req_a _ 101 db_a _ Hr Hi Hf).
Defined.

(** ** C6: [generateShortCode] is a function of its arguments *)

(** C6: two calls of [generateShortCode] with the same arguments give the
    same code, and nothing but the arguments enters it: whatever the stores,
    the clock readings, the aliases and the hosts of two [POST /shorten]
    requests for the same url, and whatever ran between their statements,
    the codes they send to the store are that same code. *)
Theorem generateShortCode_deterministic
    (url1 url2 : string) (len1 len2 : option Z) :
  url1 = url2 -> len1 = len2 ->
  generateShortCode url1 len1 = generateShortCode url2 len2
  /\ forall (req1 req2 : ShortenReq) (p1 p2 : Prog Response)
            (u1 u2 c1 c2 : string) (a1 a2 : option string),
       body_url req1 = url1 -> body_url req2 = url2 ->
       reach (shorten req1) p1 -> reach (shorten req2) p2 ->
       pending_insert p1 = Some (u1, c1, a1) ->
       pending_insert p2 = Some (u2, c2, a2) ->
       c1 = c2 /\ c1 = generateShortCode url1 None.
Proof.
  intros -> ->. split; [reflexivity |].
  intros req1 req2 p1 p2 u1 u2 c1 c2 a1 a2 E1 E2 R1 R2 I1 I2.
  apply reach_shorten_point in R1, R2.
  destruct (pending_insert_shorten_point _ _ _ _ _ R1 I1) as (_ & _ & -> & _).
  destruct (pending_insert_shorten_point _ _ _ _ _ R2 I2) as (_ & _ & -> & _).
  rewrite E1, E2. split; reflexivity.
Qed.

Lemma generateShortCode_deterministic_witness :
  generateShortCode "https://example.com/a" (Some 7)
  = generateShortCode "https://example.com/a" (Some 7)
  /\ ("cd69b81" = "cd69b81"
      /\ "cd69b81" = generateShortCode "https://example.com/a" None).
Proof.
  destruct (generateShortCode_deterministic
              "https://example.com/a" "https://example.com/a"
              (Some 7) (Some 7) eq_refl eq_refl) as [Hfun Hcalls].
  split; [exact Hfun |].
  apply (Hcalls req_a req_a_foo
           (fst (step (shorten req_a) 98 empty_db))
           (fst (step (fst (step (shorten req_a_foo) 99 db_a_gone)) 99 db_a_gone))
           "https://example.com/a" "https://example.com/a"
           "cd69b81" "cd69b81" None (Some "foo")).
  - reflexivity.
  - reflexivity.
  - apply reach_step, reach_start.
  - apply reach_step, reach_step, reach_start.
  - vm_compute. reflexivity.
  - vm_compute. reflexivity.
Defined.

(** ** Lists and lookups *)

Lemma find_split {A : Type} (P : A -> bool) (l : list A) (x : A) :
  find P l = Some x ->
  exists pre post,
    l = (pre ++ x :: post)%list /\ P x = true /\ forallb (fun y => negb (P y)) pre = true.
Proof.
  induction l as [| y l IH]; cbn; [discriminate |].
  destruct (P y) eqn:E.
  - intros [= ->]. exists [], l. auto.
  - intros H. destruct (IH H) as (pre & post & -> & Hx & Hpre).
    exists (y :: pre), post. cbn. rewrite E. auto.
Qed.

Lemma find_none_iff {A : Type} (P : A -> bool) (l : list A) :
  find P l = None <-> forall x, In x l -> P x = false.
Proof.
  split.
  - intros H x Hx. exact (find_none P l H x Hx).
  - induction l as [| y l IH]; cbn; [reflexivity |].
    intros H. rewrite (H y (or_introl eq_refl)). apply IH.
    intros x Hx. apply H. now right.
Qed.

Lemma filter_find {A : Type} (P : A -> bool) (l : list A) :
  filter P l
  = match find P l with
    | Some x => x :: tl (filter P l)
    | None => []
    end.
Proof.
  induction l as [| y l IH]; cbn; [reflexivity |].
  destruct (P y); [reflexivity | exact IH].
Qed.

Lemma find_app_none {A : Type} (P : A -> bool) (l : list A) (x : A) :
  find P l = None -> find P (l ++ [x]) = (if P x then Some x else None).
Proof.
  induction l as [| y l IH]; cbn; [reflexivity |].
  destruct (P y); [discriminate | exact IH].
Qed.

Lemma find_app_some {A : Type} (P : A -> bool) (l l' : list A) (x : A) :
  find P l = Some x -> find P (l ++ l') = Some x.
Proof.
  induction l as [| y l IH]; cbn; [discriminate |].
  destruct (P y); [trivial | exact IH].
Qed.

Lemma NoDup_map_inj {A B : Type} (f : A -> B) (l : list A) (x y : A) :
  NoDup (map f l) -> In x l -> In y l -> f x = f y -> x = y.
Proof.
  induction l as [| z l IH]; cbn; [contradiction |].
  intros Hnd Hx Hy E. inversion Hnd as [| ? ? Hz Hnd']; subst.
  destruct Hx as [-> | Hx], Hy as [-> | Hy]; auto.
  - exfalso. apply Hz. rewrite E. now apply in_map.
  - exfalso. apply Hz. rewrite <- E. now apply in_map.
Qed.

Lemma key_of_spec (key : string) (r : UrlRow) :
  alias_is key r || String.eqb (short_code r) key = true <-> key_of key r.
Proof.
  unfold key_of, alias_is. rewrite orb_true_iff, String.eqb_eq.
  destruct (alias r) as [a |].
  - rewrite String.eqb_eq. split; (intros [H | H]; [left | right]; congruence).
  - split; (intros [H | H]; [discriminate | now right]).
Qed.

Lemma first_match_some (key : string) (db : Db) (r : UrlRow) :
  first_match key db = Some r -> In r (rows db) /\ key_of key r.
Proof.
  intros H. apply find_some in H. now rewrite <- key_of_spec.
Qed.

Lemma first_match_none (key : string) (db : Db) :
  first_match key db = None <-> forall r, In r (rows db) -> ~ key_of key r.
Proof.
  unfold first_match. rewrite find_none_iff.
  split; intros H r Hr.
  - rewrite <- key_of_spec, (H r Hr). discriminate.
  - specialize (H r Hr). rewrite <- key_of_spec in H.
    now destruct (alias_is key r || String.eqb (short_code r) key).
Qed.

Lemma first_match_unique (key : string) (db : Db) (r : UrlRow) :
  In r (rows db) -> key_of key r ->
  (forall r', In r' (rows db) -> key_of key r' -> r' = r) ->
  first_match key db = Some r.
Proof.
  intros Hin Hkey Huniq.
  destruct (first_match key db) as [r0 |] eqn:E.
  - apply first_match_some in E as [Hin0 Hkey0].
    now rewrite (Huniq r0 Hin0 Hkey0).
  - rewrite first_match_none in E. now destruct (E r Hin).
Qed.

Lemma first_for_url_some (url : string) (db : Db) (r : UrlRow) :
  first_for_url url db = Some r -> In r (rows db) /\ original_url r = url.
Proof.
  intros H. apply find_some in H. now rewrite String.eqb_eq in H.
Qed.

Lemma first_for_url_none (url : string) (db : Db) :
  first_for_url url db = None <-> ~ In url (map original_url (rows db)).
Proof.
  unfold first_for_url. rewrite find_none_iff, in_map_iff. split.
  - intros H (r & E & Hr). specialize (H r Hr).
    rewrite String.eqb_neq in H. contradiction.
  - intros H r Hr. rewrite String.eqb_neq. intros E. apply H. now exists r.
Qed.

Lemma or_else_or_null (a : option string) (c : string) :
  or_else (or_null a) c = or_else a c.
Proof. destruct a as [[| ch s] |]; reflexivity. Qed.

(** ** The handlers run alone *)

Lemma run_step {R : Type} (p : Prog R) (now : Z) (db : Db) :
  run p now db = run (fst (step p now db)) now (snd (step p now db)).
Proof.
  destruct p as [r | e | A q k]; cbn; try reflexivity.
  now destruct (exec q now db).
Qed.

Lemma run_shorten_at_insert (req : ShortenReq) (now : Z) (db : Db) :
  run (shorten_at_insert req) now db = insert_outcome req now db.
Proof.
  rewrite run_step, step_shorten_at_insert. unfold insert_outcome.
  destruct (insert_url _ _ _ now db) as [[rs | e] db']; reflexivity.
Qed.

Lemma run_shorten (req : ShortenReq) (now : Z) (db : Db) :
  run (shorten req) now db
  = if has_nul (body_url req) then (Ok server_error, db)
    else
      match first_for_url (body_url req) db with
      | Some r =>
          (Ok (already_exists req (or_else (alias r) (short_code r))), db)
      | None =>
          match or_null (query_alias req) with
          | Some a =>
              if has_nul a then (Ok server_error, db)
              else
                match find (alias_is a) (rows db) with
                | Some _ => (Ok alias_conflict, db)
                | None => insert_outcome req now db
                end
          | None => insert_outcome req now db
          end
      end.
Proof.
  rewrite run_step, step_shorten. cbn [fst snd].
  destruct (has_nul (body_url req)); [reflexivity |].
  unfold select_code_alias_by_url, first_for_url. rewrite filter_find.
  destruct (find _ (rows db)) as [r |]; cbn [map]; [reflexivity |].
  destruct (or_null (query_alias req)) as [a |].
  - rewrite run_step, step_shorten_at_alias. cbn [fst snd].
    destruct (has_nul a); [reflexivity |].
    unfold select_id_by_alias. rewrite filter_find.
    destruct (find (alias_is a) (rows db)); cbn [map]; [reflexivity |].
    apply run_shorten_at_insert.
  - apply run_shorten_at_insert.
Qed.

Lemma run_stats (code : string) (now : Z) (db : Db) :
  run (stats code) now db
  = (Ok (if has_nul code then server_error
         else
           match first_match code db with
           | Some r => mkResponse 200 (StatsBody (stats_of r))
           | None => not_found "URL not found"
           end), db).
Proof.
  unfold stats, first_match.
  cbn [run try_catch bind client_query exec].
  destruct (has_nul code); [reflexivity |].
  unfold select_stats_by_code. rewrite filter_find.
  destruct (find _ (rows db)); reflexivity.
Qed.

Lemma run_redirect (code : string) (now : Z) (db : Db) :
  run (redirect code) now db
  = if has_nul code then (Ok server_error, db)
    else
      match first_match code db with
      | None => (Ok (not_found "Short URL not found"), db)
      | Some r =>
          match update_access (id r) now db with
          | (Ok _, db') =>
              (Ok (mkResponse 302 (Location (original_url r))), db')
          | (Err _, db') => (Ok server_error, db')
          end
      end.
Proof.
  unfold redirect, first_match.
  cbn [run try_catch bind client_query exec].
  destruct (has_nul code); [reflexivity |].
  unfold select_id_url_by_code. rewrite filter_find.
  destruct (find _ (rows db)) as [r |]; cbn [map]; [| reflexivity].
  cbn [run try_catch bind client_query exec].
  destruct (update_access (id r) now db) as [[u | e] db']; reflexivity.
Qed.

(** ** The two writing statements *)

Lemma insert_url_ok (url code : string) (a : option string) (now : Z)
    (db : Db) (rs : list (string * option string)) :
  fst (insert_url url code a now db) = Ok rs ->
  snd (insert_url url code a now db)
  = mkDb (rows db ++ [mkRow (urls_id_seq db) url code a now 0 None])
         (urls_id_seq db + 1)
  /\ ~ In (urls_id_seq db) (map id (rows db))
  /\ urls_id_seq db <= INT_MAX.
Proof.
  unfold insert_url.
  match goal with |- context [if ?b then _ else _] => destruct b end;
    [discriminate |].
  destruct (INT_MAX <? urls_id_seq db) eqn:Eseq; [discriminate |].
  match goal with |- context [if ?b then _ else _] => destruct b end;
    [discriminate |].
  match goal with |- context [if ?b then _ else _] => destruct b eqn:Euniq end;
    [discriminate |].
  intros _. cbn [snd]. split; [reflexivity | split].
  - rewrite in_map_iff. intros (r & E & Hr).
    apply orb_false_iff in Euniq as [Euniq _].
    apply orb_false_iff in Euniq as [Eid _].
    rewrite <- not_true_iff_false in Eid. apply Eid.
    apply existsb_exists. exists r. split; [exact Hr | lia].
  - lia.
Qed.

Lemma update_access_error (i now : Z) (db : Db) (e : DbError) (db' : Db) :
  update_access i now db = (Err e, db') -> db' = db.
Proof.
  unfold update_access. destruct (existsb _ (rows db)); congruence.
Qed.

Lemma filter_id_split (pre post : list UrlRow) (r : UrlRow) :
  NoDup (map id (pre ++ r :: post)) ->
  filter (fun x => negb (id x =? id r)) (pre ++ r :: post)
  = (pre ++ post)%list
  /\ filter (fun x => id x =? id r) (pre ++ r :: post) = [r].
Proof.
  intros Hnd.
  assert (Hother : forall x, In x pre \/ In x post -> (id x =? id r) = false).
  { intros x Hx. apply Z.eqb_neq. intros E.
    rewrite map_app in Hnd. cbn [map] in Hnd.
    apply NoDup_remove_2 in Hnd. apply Hnd.
    rewrite <- E, in_app_iff. destruct Hx; [left | right]; now apply in_map. }
  assert (Hkeep : forall l, (forall x, In x l -> (id x =? id r) = false) ->
            filter (fun x => negb (id x =? id r)) l = l
            /\ filter (fun x => id x =? id r) l = []).
  { induction l as [| y l IH]; intros Hl; [now split |].
    cbn [filter]. rewrite (Hl y (or_introl eq_refl)). cbn [negb].
    destruct IH as [-> ->]; [intros x Hx; apply Hl; now right | now split]. }
  destruct (Hkeep pre) as [Hp1 Hp2]; [intros x Hx; apply Hother; now left |].
  destruct (Hkeep post) as [Hq1 Hq2]; [intros x Hx; apply Hother; now right |].
  rewrite !filter_app. cbn [filter]. rewrite Z.eqb_refl. cbn [negb].
  now rewrite Hp1, Hp2, Hq1, Hq2.
Qed.

Lemma update_access_ok (now : Z) (db : Db) (pre post : list UrlRow)
    (r : UrlRow) :
  NoDup (map id (rows db)) ->
  rows db = (pre ++ r :: post)%list ->
  access_count r < INT_MAX ->
  update_access (id r) now db
  = (Ok tt, mkDb (pre ++ post ++ [touch now r]) (urls_id_seq db)).
Proof.
  intros Hnd Hrows Hcount. unfold update_access.
  destruct (existsb _ (rows db)) eqn:E.
  - exfalso. apply existsb_exists in E as (x & Hx & Hb).
    apply andb_true_iff in Hb as [Hid Hmax].
    assert (x = r).
    { apply (NoDup_map_inj id (rows db)); auto; [| lia].
      rewrite Hrows, in_app_iff. right. now left. }
    subst x. lia.
  - rewrite Hrows in Hnd |- *.
    destruct (filter_id_split pre post r Hnd) as [-> ->].
    cbn [map]. now rewrite <- app_assoc.
Qed.

Lemma update_access_overflow (now : Z) (db : Db) (r : UrlRow) :
  In r (rows db) -> INT_MAX <= access_count r ->
  update_access (id r) now db = (Err NumericOutOfRange, db).
Proof.
  intros Hin Hmax. unfold update_access.
  destruct (existsb _ (rows db)) eqn:E; [reflexivity |].
  rewrite <- not_true_iff_false in E. exfalso. apply E.
  apply existsb_exists. exists r. split; [exact Hin |].
  apply andb_true_iff. split; lia.
Qed.

(** ** What stays true of the store *)

Lemma wf_empty : wf empty_db.
Proof. split; cbn; constructor. Qed.

Lemma wf_insert (req : ShortenReq) (now : Z) (db : Db)
    (rs : list (string * option string)) :
  wf db ->
  first_for_url (body_url req) db = None ->
  fst (insert_url (body_url req) (generateShortCode (body_url req) None)
         (or_null (query_alias req)) now db) = Ok rs ->
  wf (snd (insert_url (body_url req) (generateShortCode (body_url req) None)
             (or_null (query_alias req)) now db)).
Proof.
  intros [Hids Hcounts Hurls] Hurl Hok.
  destruct (insert_url_ok _ _ _ _ _ _ Hok) as (-> & Hfresh & _).
  rewrite first_for_url_none in Hurl.
  split; cbn [rows].
  - rewrite map_app. cbn [map id].
    apply NoDup_app; [exact Hids | repeat constructor; cbn; tauto |].
    intros i Hi [<- | []]. contradiction.
  - apply Forall_app. split; [exact Hcounts |].
    repeat constructor; cbn; unfold INT_MAX; lia.
  - rewrite map_app. cbn [map original_url].
    apply NoDup_app; [exact Hurls | repeat constructor; cbn; tauto |].
    intros u Hu [<- | []]. contradiction.
Qed.

Lemma wf_touch (now : Z) (pre post : list UrlRow) (r : UrlRow) (seq_ : Z) :
  wf (mkDb (pre ++ r :: post) seq_) ->
  access_count r < INT_MAX ->
  wf (mkDb (pre ++ post ++ [touch now r]) seq_).
Proof.
  intros [Hids Hcounts Hurls] Hcount. cbn [rows] in *.
  assert (Hperm : Permutation (pre ++ touch now r :: post)
                              (pre ++ post ++ [touch now r])).
  { rewrite app_assoc. symmetry.
    rewrite <- Permutation_cons_append. apply Permutation_middle. }
  split; cbn [rows].
  - apply (Permutation_NoDup (Permutation_map id Hperm)).
    now rewrite map_app in *.
  - apply (Permutation_Forall Hperm).
    rewrite Forall_app in *. destruct Hcounts as [Hpre Hpost].
    split; [exact Hpre |].
    inversion Hpost as [| ? ? Hr Hpost']; subst.
    constructor; [cbn; lia | exact Hpost'].
  - apply (Permutation_NoDup (Permutation_map original_url Hperm)).
    now rewrite map_app in *.
Qed.

Lemma shorten_outcomes (req : ShortenReq) (now : Z) (db : Db) :
  (exists r,
      first_for_url (body_url req) db = Some r
      /\ run (shorten req) now db
         = (Ok (already_exists req (or_else (alias r) (short_code r))), db))
  \/ (first_for_url (body_url req) db = None
      /\ exists a r,
           or_null (query_alias req) = Some a
           /\ find (alias_is a) (rows db) = Some r
           /\ run (shorten req) now db = (Ok alias_conflict, db))
  \/ (has_nul (body_url req) = false
      /\ first_for_url (body_url req) db = None
      /\ (forall a, or_null (query_alias req) = Some a ->
                    has_nul a = false /\ find (alias_is a) (rows db) = None)
      /\ run (shorten req) now db = insert_outcome req now db)
  \/ ((has_nul (body_url req) = true
       \/ exists a, or_null (query_alias req) = Some a /\ has_nul a = true)
      /\ run (shorten req) now db = (Ok server_error, db)).
Proof.
  rewrite run_shorten.
  destruct (has_nul (body_url req)) eqn:Eu; [right; right; right; auto |].
  destruct (first_for_url (body_url req) db) as [r |];
    [left; now exists r |].
  right.
  destruct (or_null (query_alias req)) as [a |].
  - destruct (has_nul a) eqn:Ea.
    { right. right. split; [right; now exists a | reflexivity]. }
    destruct (find (alias_is a) (rows db)) as [r |] eqn:E.
    + left. split; [reflexivity |]. now exists a, r.
    + right. left.
      split; [reflexivity | split; [reflexivity | split; [| reflexivity]]].
      intros ? [= <-]. now split.
  - right. left.
    split; [reflexivity | split; [reflexivity | split; [| reflexivity]]].
    discriminate.
Qed.

Lemma insert_outcome_cases (req : ShortenReq) (now : Z) (db : Db) :
  (exists rs,
      fst (insert_url (body_url req) (generateShortCode (body_url req) None)
             (or_null (query_alias req)) now db) = Ok rs
      /\ insert_outcome req now db
         = (Ok (created req (or_else (query_alias req)
                               (generateShortCode (body_url req) None))),
            mkDb (rows db ++
                    [mkRow (urls_id_seq db) (body_url req)
                           (generateShortCode (body_url req) None)
                           (or_null (query_alias req)) now 0 None])
                 (urls_id_seq db + 1)))
  \/ (exists db',
         insert_outcome req now db = (Ok server_error, db')
         /\ rows db' = rows db).
Proof.
  unfold insert_outcome.
  destruct (insert_url _ _ _ now db) as [[rs | e] db'] eqn:E.
  - left. exists rs. split; [reflexivity |].
    destruct (insert_url_ok (body_url req)
                (generateShortCode (body_url req) None)
                (or_null (query_alias req)) now db rs) as (Hdb & _).
    + now rewrite E.
    + rewrite E in Hdb. cbn [snd] in Hdb. now rewrite Hdb.
  - right. exists db'. split; [reflexivity |].
    change db' with (snd (Err (A := list (string * option string)) e, db')).
    rewrite <- E. apply (insert_url_error_rows _ _ _ _ _ e). now rewrite E.
Qed.

Lemma wf_same_rows (db db' : Db) : rows db' = rows db -> wf db -> wf db'.
Proof. intros E [H1 H2 H3]. split; now rewrite E. Qed.

Lemma wf_shorten (req : ShortenReq) (now : Z) (db : Db) :
  wf db -> wf (snd (run (shorten req) now db)).
Proof.
  intros Hwf.
  destruct (shorten_outcomes req now db)
    as [(r & _ & ->) | [(_ & a & r & _ & _ & ->)
                       | [(_ & Hurl & _ & ->) | (_ & ->)]]];
    try exact Hwf.
  unfold insert_outcome.
  pose proof (wf_insert req now db) as Hins.
  pose proof (insert_url_error_rows (body_url req)
                (generateShortCode (body_url req) None)
                (or_null (query_alias req)) now db) as Herr.
  destruct (insert_url _ _ _ now db) as [[rs | e] db']; cbn [fst snd] in *.
  - now apply (Hins rs).
  - apply (wf_same_rows db); [now apply (Herr e) | exact Hwf].
Qed.

Lemma redirect_outcomes (code : string) (now : Z) (db : Db) :
  wf db ->
  (has_nul code = false /\ first_match code db = None
   /\ run (redirect code) now db
      = (Ok (not_found "Short URL not found"), db))
  \/ (exists r,
         first_match code db = Some r /\ INT_MAX <= access_count r
         /\ run (redirect code) now db = (Ok server_error, db))
  \/ (exists r pre post,
         has_nul code = false
         /\ first_match code db = Some r /\ access_count r < INT_MAX
         /\ rows db = (pre ++ r :: post)%list
         /\ run (redirect code) now db
            = (Ok (mkResponse 302 (Location (original_url r))),
               mkDb (pre ++ post ++ [touch now r]) (urls_id_seq db)))
  \/ (has_nul code = true
      /\ run (redirect code) now db = (Ok server_error, db)).
Proof.
  intros Hwf. rewrite run_redirect.
  destruct (has_nul code) eqn:En; [right; right; right; auto |].
  destruct (first_match code db) as [r |] eqn:E; [right | now left].
  destruct (find_split _ _ _ E) as (pre & post & Hrows & _).
  destruct (Z_lt_le_dec (access_count r) INT_MAX) as [Hlt | Hge].
  - right. left. exists r, pre, post.
    rewrite (update_access_ok now db pre post r (wf_ids db Hwf) Hrows Hlt).
    auto.
  - left. exists r. rewrite update_access_overflow; auto.
    now apply first_match_some in E.
Qed.

Lemma wf_redirect (code : string) (now : Z) (db : Db) :
  wf db -> wf (snd (run (redirect code) now db)).
Proof.
  intros Hwf.
  destruct (redirect_outcomes code now db Hwf)
    as [(_ & _ & ->) | [(r & _ & _ & ->)
       | [(r & pre & post & _ & _ & Hlt & Hrows & ->) | (_ & ->)]]];
    try exact Hwf.
  cbn [snd]. apply wf_touch; [| exact Hlt].
  destruct db as [rs sq]. cbn [rows urls_id_seq] in *. now subst rs.
Qed.

Lemma wf_handler (rq : Request) (now : Z) (db : Db) :
  wf db -> wf (snd (run (handler rq) now db)).
Proof.
  destruct rq as [req | code | code]; cbn [handler].
  - apply wf_shorten.
  - apply wf_redirect.
  - now rewrite run_stats.
Qed.

Lemma reachable_wf (db : Db) : reachable db -> wf db.
Proof.
  induction 1 as [| rq now db _ IH]; [exact wf_empty | now apply wf_handler].
Qed.

(** ** C10, C3, C4: [POST /shorten] *)

(** C10: when a record for the submitted url exists (what is stored has
    no zero byte), [POST /shorten] answers 200 "URL already exists" with
    the path of that record (its alias if it has one, else its short code)
    and leaves the store exactly as it was, whatever alias the request
    carries: the alias is neither checked against the other records nor
    attached to the record. *)
Theorem shorten_existing_ignores_alias
    (req : ShortenReq) (now : Z) (db : Db) (r : UrlRow) :
  In r (rows db) -> has_nul (original_url r) = false ->
  original_url r = body_url req ->
  exists r0 : UrlRow,
    first_for_url (body_url req) db = Some r0
    /\ In r0 (rows db) /\ original_url r0 = body_url req
    /\ (wf db -> r0 = r)
    /\ run (shorten req) now db
       = (Ok (already_exists req (or_else (alias r0) (short_code r0))), db).
Proof.
  intros Hin Hnul Hurl. rewrite Hurl in Hnul.
  destruct (first_for_url (body_url req) db) as [r0 |] eqn:E.
  - exists r0. destruct (first_for_url_some _ _ _ E) as [Hin0 Hurl0].
    repeat split; try assumption.
    + intros Hwf. apply (NoDup_map_inj original_url (rows db));
        [apply Hwf | assumption | assumption | congruence].
    + rewrite run_shorten, Hnul, E. reflexivity.
  - exfalso. rewrite first_for_url_none in E. apply E.
    rewrite <- Hurl. now apply in_map.
Qed.

Lemma shorten_existing_ignores_alias_witness :
  In (mkRow 1 "https://example.com/a" "cd69b81" None 100 0 None) (rows db_a)
  /\ has_nul
       (original_url (mkRow 1 "https://example.com/a" "cd69b81" None 100 0
                            None))
     = false
  /\ original_url (mkRow 1 "https://example.com/a" "cd69b81" None 100 0 None)
     = body_url req_a_foo
  /\ exists r0 : UrlRow,
       first_for_url (body_url req_a_foo) db_a = Some r0
       /\ In r0 (rows db_a) /\ original_url r0 = body_url req_a_foo
       /\ (wf db_a
           -> r0 = mkRow 1 "https://example.com/a" "cd69b81" None 100 0 None)
       /\ run (shorten req_a_foo) 101 db_a
          = (Ok (already_exists req_a_foo (or_else (alias r0) (short_code r0))),
             db_a).
Proof.
  assert (Hin : In (mkRow 1 "https://example.com/a" "cd69b81" None 100 0 None)
                   (rows db_a)) by (simpl; left; reflexivity).
  split; [exact Hin | split; [reflexivity | split; [reflexivity |]]].
  exact (shorten_existing_ignores_alias req_a_foo 101 db_a _ Hin eq_refl
           eq_refl).
Defined.

(** C3, as stated, fails: not every url gets a short code.  The url
    [https://example.com/2133] has the short code of the stored
    [https://example.com/1548]; its first submission is answered 500 and so
    is its second: no code is returned, nothing signals "already existed",
    and the url has no record. *)
Lemma shorten_twice_counterexample :
  run (shorten req_1548) 100 empty_db
  = (Ok (created req_1548 "7f17b0c"), db_1548)
  /\ run (shorten req_2133) 101 db_1548
     = (Ok server_error, mkDb (rows db_1548) 3)
  /\ run (shorten req_2133) 102 (mkDb (rows db_1548) 3)
     = (Ok server_error, mkDb (rows db_1548) 4)
  /\ first_for_url (body_url req_2133) (mkDb (rows db_1548) 4) = None.
Proof. vm_compute. repeat split. Qed.

(** C3 (amended): after a [POST /shorten] for a url has been answered 201
    or 200, a second one for the same url is answered 200 "URL already
    exists" with the same path and writes nothing; the store holds exactly
    one record of that url; the path is the alias of that record when it
    has a (non-empty) alias and its short code when it has none; and the
    first answer was 201 exactly when the record was new (its short code
    then being [generateShortCode url]), so that 201 and 200 tell "newly
    created" from "already existed". *)
Theorem shorten_twice_same_record
    (req1 req2 : ShortenReq) (now1 now2 : Z) (db db1 : Db)
    (resp1 : Response) :
  wf db ->
  body_url req2 = body_url req1 ->
  run (shorten req1) now1 db = (Ok resp1, db1) ->
  status resp1 = 201 \/ status resp1 = 200 ->
  exists (r : UrlRow) (path : string),
    In r (rows db1) /\ original_url r = body_url req1
    /\ (forall r', In r' (rows db1) ->
                   original_url r' = body_url req1 -> r' = r)
    /\ (forall a, alias r = Some a -> a <> "" -> path = a)
    /\ (alias r = None \/ alias r = Some "" -> path = short_code r)
    /\ (resp1 = created req1 path
        /\ ~ In r (rows db)
        /\ short_code r = generateShortCode (body_url req1) None
        \/ resp1 = already_exists req1 path /\ db1 = db)
    /\ run (shorten req2) now2 db1 = (Ok (already_exists req2 path), db1)
    /\ status (already_exists req2 path) = 200
    /\ status (created req1 path) = 201.
Proof.
  intros Hwf Hsame Hrun Hstatus.
  assert (Hwf1 : wf db1).
  { change db1 with (snd (Ok resp1, db1)). rewrite <- Hrun.
    now apply wf_shorten. }
  assert (Huniq : forall r, In r (rows db1) ->
            forall r', In r' (rows db1) ->
                       original_url r' = original_url r -> r' = r).
  { intros r Hr r' Hr' E.
    apply (NoDup_map_inj original_url (rows db1));
      [apply Hwf1 | assumption | assumption | exact E]. }
  assert (Hpath : forall r : UrlRow,
            (forall a, alias r = Some a -> a <> "" ->
                       or_else (alias r) (short_code r) = a)
            /\ (alias r = None \/ alias r = Some "" ->
                or_else (alias r) (short_code r) = short_code r)).
  { intros r. split.
    - intros a -> Ha. destruct a; [contradiction | reflexivity].
    - intros [-> | ->]; reflexivity. }
  assert (Hnul : has_nul (body_url req1) = false).
  { destruct (has_nul (body_url req1)) eqn:E; [| reflexivity].
    rewrite run_shorten, E in Hrun. injection Hrun as <- <-.
    cbn in Hstatus. lia. }
  destruct (shorten_outcomes req1 now1 db)
    as [(r & Hfirst & Hrun') | [(_ & a & r & _ & _ & Hrun')
       | [(_ & Hnone & _ & Hrun') | (_ & Hrun')]]];
    rewrite Hrun' in Hrun.
  - (* the url was known *)
    injection Hrun as <- <-.
    exists r, (or_else (alias r) (short_code r)).
    destruct (first_for_url_some _ _ _ Hfirst) as [Hin Hurl].
    destruct (Hpath r) as [Hp1 Hp2].
    repeat split; try assumption.
    + intros r' Hr' E. apply (Huniq r Hin r' Hr'). congruence.
    + right. split; reflexivity.
    + rewrite run_shorten, Hsame, Hnul, Hfirst. reflexivity.
  - (* alias taken: no 200 or 201 *)
    injection Hrun as <- <-. cbn in Hstatus. lia.
  - (* the record is inserted *)
    destruct (insert_outcome_cases req1 now1 db)
      as [(rs & _ & Hout) | (db' & Hout & _)];
      rewrite Hout in Hrun; injection Hrun as <- <-;
      [| cbn in Hstatus; lia].
    set (r := mkRow (urls_id_seq db) (body_url req1)
                    (generateShortCode (body_url req1) None)
                    (or_null (query_alias req1)) now1 0 None) in *.
    assert (Hin : In r (rows (mkDb (rows db ++ [r]) (urls_id_seq db + 1)))).
    { cbn [rows]. rewrite in_app_iff. right. now left. }
    assert (Hsamepath : or_else (alias r) (short_code r)
                        = or_else (query_alias req1)
                            (generateShortCode (body_url req1) None)).
    { cbn [alias short_code r]. apply or_else_or_null. }
    exists r, (or_else (alias r) (short_code r)).
    destruct (Hpath r) as [Hp1 Hp2].
    repeat split; try assumption.
    + intros r' Hr' E. now apply (Huniq r Hin r' Hr').
    + left. repeat split.
      * now rewrite Hsamepath.
      * intros Hold. rewrite first_for_url_none in Hnone. apply Hnone.
        change (body_url req1) with (original_url r). now apply in_map.
    + rewrite run_shorten, Hsame, Hnul. unfold first_for_url. cbn [rows].
      rewrite (find_app_none _ _ _ Hnone). cbn [original_url r].
      now rewrite String.eqb_refl.
  - (* refused by the store: no 200 or 201 *)
    injection Hrun as <- <-. cbn in Hstatus. lia.
Qed.

Lemma shorten_twice_same_record_witness :
  wf empty_db
  /\ body_url req_a = body_url req_a_foo
  /\ run (shorten req_a_foo) 100 empty_db
     = (Ok (created req_a_foo "foo"), db_a_foo 0)
  /\ status (created req_a_foo "foo") = 201
  /\ run (shorten req_a) 101 (db_a_foo 0)
     = (Ok (already_exists req_a "foo"), db_a_foo 0).
Proof.
  assert (Hrun : run (shorten req_a_foo) 100 empty_db
                 = (Ok (created req_a_foo "foo"), db_a_foo 0))
    by (vm_compute; reflexivity).
  split; [exact wf_empty | split; [reflexivity | split; [exact Hrun |]]].
  split; [reflexivity |].
  destruct (shorten_twice_same_record req_a_foo req_a 100 101 empty_db
              (db_a_foo 0) (created req_a_foo "foo") wf_empty eq_refl Hrun
              (or_introl eq_refl))
    as (r & path & Hin & _ & _ & Halias & _ & _ & Hsecond & _).
  destruct Hin as [<- | []].
  rewrite (Halias "foo" eq_refl) in Hsecond by discriminate.
  exact Hsecond.
Defined.

(** C4, as stated, fails, in two ways.  A request for a url that is
    already stored succeeds (200) without reserving the alias it carries,
    so the same alias is then granted (201) to another url.  And when the
    alias was reserved by a creation, a second url that contains a zero
    byte is answered 500, not 409: the store refuses the first query. *)
Lemma alias_exclusivity_counterexample :
  run (shorten req_a_foo) 101 db_a
  = (Ok (already_exists req_a_foo "cd69b81"), db_a)
  /\ first_for_url (body_url req_b_foo) db_a = None
  /\ run (shorten req_b_foo) 102 db_a
     = (Ok (created req_b_foo "foo"),
        mkDb (rows db_a ++
                [mkRow 2 "https://example.com/b" "43cc12e" (Some "foo")
                       102 0 None]) 3)
  /\ run (shorten req_a_foo) 100 empty_db
     = (Ok (created req_a_foo "foo"), db_a_foo 0)
  /\ first_for_url (body_url req_nul_foo) (db_a_foo 0) = None
  /\ run (shorten req_nul_foo) 101 (db_a_foo 0)
     = (Ok server_error, db_a_foo 0).
Proof. vm_compute. repeat split. Qed.

(** C4 (amended): if [POST /shorten] for [url1] with a non-empty alias [a]
    was answered 201 (the record was newly created, with that alias), and
    no record of [url2] exists, [url2] having no zero byte, then
    [POST /shorten] for [url2] with the same alias is answered 409 "Alias
    already in use" and the store is unchanged. *)
Theorem alias_exclusive_after_creation
    (req1 req2 : ShortenReq) (now1 now2 : Z) (db db1 : Db)
    (resp1 : Response) (a : string) :
  query_alias req1 = Some a -> query_alias req2 = Some a -> a <> "" ->
  body_url req2 <> body_url req1 ->
  has_nul (body_url req2) = false ->
  run (shorten req1) now1 db = (Ok resp1, db1) ->
  status resp1 = 201 ->
  first_for_url (body_url req2) db1 = None ->
  run (shorten req2) now2 db1 = (Ok alias_conflict, db1).
Proof.
  intros Ha1 Ha2 Hne _ Hnul Hrun Hstatus Hfresh.
  assert (Hnull : forall req, query_alias req = Some a ->
                              or_null (query_alias req) = Some a).
  { intros req ->. destruct a; [contradiction | reflexivity]. }
  rewrite run_shorten, Hnul, Hfresh, (Hnull req2 Ha2).
  destruct (shorten_outcomes req1 now1 db)
    as [(r & _ & Hrun') | [(_ & a' & r & _ & _ & Hrun')
       | [(_ & _ & Halias & Hrun') | (_ & Hrun')]]];
    rewrite Hrun' in Hrun;
    try (injection Hrun as <- <-; cbn in Hstatus; lia).
  destruct (Halias a (Hnull req1 Ha1)) as [-> _].
  destruct (insert_outcome_cases req1 now1 db)
    as [(rs & _ & Hout) | (db' & Hout & _)];
    rewrite Hout in Hrun; injection Hrun as <- <-;
    [| cbn in Hstatus; lia].
  cbn [rows]. rewrite (Hnull req1 Ha1).
  destruct (find (alias_is a) _) as [r |] eqn:E; [reflexivity |].
  exfalso. rewrite find_none_iff in E.
  specialize (E (mkRow (urls_id_seq db) (body_url req1)
                       (generateShortCode (body_url req1) None)
                       (Some a) now1 0 None)).
  unfold alias_is in E. cbn [alias] in E. rewrite String.eqb_refl in E.
  assert (true = false); [| discriminate].
  apply E. rewrite in_app_iff. right. now left.
Qed.

Lemma alias_exclusive_after_creation_witness :
  query_alias req_a_foo = Some "foo" /\ query_alias req_b_foo = Some "foo"
  /\ "foo" <> ""
  /\ body_url req_b_foo <> body_url req_a_foo
  /\ has_nul (body_url req_b_foo) = false
  /\ run (shorten req_a_foo) 100 empty_db
     = (Ok (created req_a_foo "foo"), db_a_foo 0)
  /\ status (created req_a_foo "foo") = 201
  /\ first_for_url (body_url req_b_foo) (db_a_foo 0) = None
  /\ run (shorten req_b_foo) 101 (db_a_foo 0)
     = (Ok alias_conflict, db_a_foo 0).
Proof.
  assert (Hne : "foo" <> "") by discriminate.
  assert (Hurl : body_url req_b_foo <> body_url req_a_foo) by discriminate.
  assert (Hnul : has_nul (body_url req_b_foo) = false) by reflexivity.
  assert (Hrun : run (shorten req_a_foo) 100 empty_db
                 = (Ok (created req_a_foo "foo"), db_a_foo 0))
    by (vm_compute; reflexivity).
  assert (Hfresh : first_for_url (body_url req_b_foo) (db_a_foo 0) = None)
    by (vm_compute; reflexivity).
  repeat (split; [first [reflexivity | assumption] |]).
  exact (alias_exclusive_after_creation req_a_foo req_b_foo 100 101 _ _ _
           "foo" eq_refl eq_refl Hne Hurl Hnul Hrun eq_refl Hfresh).
Defined.

(** ** C8: [GET /stats/:code] *)

(** C8, as stated, fails: a key with a zero byte matches no record, yet
    it is not answered 404: the store refuses the parameter and the
    handler answers 500. *)
Lemma stats_refused_key_counterexample :
  (forall r, In r (rows db_a) -> ~ key_of nul r)
  /\ run (stats nul) 100 db_a = (Ok server_error, db_a).
Proof.
  split; [| vm_compute; reflexivity].
  intros r [<- | []] [H | H]; discriminate H.
Qed.

(** C8 (amended): [GET /stats/:code] never changes the store, whatever the
    key.  For a key without a zero byte it answers with the six columns of
    a record whose alias or short code is the key (of the record, when only
    one has the key), and with 404 when no record has the key as alias or
    short code; a key with a zero byte is answered 500. *)
Theorem stats_read_only (code : string) (now : Z) (db : Db) :
  snd (run (stats code) now db) = db
  /\ (has_nul code = false ->
      (forall r, only_match code r db ->
         fst (run (stats code) now db)
         = Ok (mkResponse 200
                 (StatsBody
                    (mkStats (original_url r) (short_code r) (alias r)
                             (created_at r) (access_count r)
                             (last_accessed r)))))
      /\ ((exists r, In r (rows db) /\ key_of code r) ->
          exists r,
            In r (rows db) /\ key_of code r
            /\ fst (run (stats code) now db)
               = Ok (mkResponse 200
                       (StatsBody
                          (mkStats (original_url r) (short_code r) (alias r)
                                   (created_at r) (access_count r)
                                   (last_accessed r)))))
      /\ ((forall r, In r (rows db) -> ~ key_of code r) ->
          fst (run (stats code) now db) = Ok (not_found "URL not found")))
  /\ (has_nul code = true ->
      fst (run (stats code) now db) = Ok server_error).
Proof.
  rewrite run_stats. cbn [fst snd]. split; [reflexivity | split].
  - intros ->. split; [| split].
    + intros r (Hin & Hkey & Huniq).
      now rewrite (first_match_unique code db r Hin Hkey Huniq).
    + intros (r & Hin & Hkey).
      destruct (first_match code db) as [r0 |] eqn:E.
      * exists r0. destruct (first_match_some _ _ _ E). auto.
      * rewrite first_match_none in E. now destruct (E r Hin).
    + intros Hnone. apply first_match_none in Hnone. now rewrite Hnone.
  - now intros ->.
Qed.

(** ** C2: [GET /:code] *)

Lemma one_row_visit (r : UrlRow) (sq now : Z) (key : string) :
  has_nul key = false -> key_of key r -> access_count r < INT_MAX ->
  run (redirect key) now (mkDb [r] sq)
  = (Ok (mkResponse 302 (Location (original_url r))), mkDb [touch now r] sq).
Proof.
  intros Hnul Hkey Hlt. rewrite run_redirect, Hnul.
  unfold first_match. cbn [rows find].
  apply key_of_spec in Hkey. rewrite Hkey.
  rewrite (update_access_ok now (mkDb [r] sq) [] [] r);
    [reflexivity | repeat constructor; cbn; tauto | reflexivity | exact Hlt].
Qed.

Lemma db_visited_reachable (c : Z) :
  0 <= c <= INT_MAX -> reachable (db_visited c).
Proof.
  intros [Hlo Hhi]. revert Hhi. pattern c. apply natlike_ind; [| | exact Hlo].
  - intros _.
    change (db_visited 0)
      with (snd (Ok (created req_a "cd69b81"), db_visited 0)).
    replace (Ok (created req_a "cd69b81"), db_visited 0)
      with (run (handler (PostShorten req_a)) 100 empty_db)
      by (vm_compute; reflexivity).
    apply reachable_request, reachable_empty.
  - intros n Hn IH Hhi.
    assert (Hrun : run (handler (GetCode "cd69b81")) 200 (db_visited n)
                   = (Ok (mkResponse 302 (Location "https://example.com/a")),
                      db_visited (Z.succ n))).
    { cbn [handler]. unfold db_visited.
      rewrite (one_row_visit (row_a_visited n) 2 200 "cd69b81");
        [| reflexivity | now right | cbn; lia].
      assert (E' : (Z.succ n =? 0) = false) by (apply Z.eqb_neq; lia).
      unfold touch, row_a_visited. cbn. rewrite E'.
      now rewrite Z.add_1_r. }
    change (db_visited (Z.succ n))
      with (snd (Ok (mkResponse 302 (Location "https://example.com/a")),
                 db_visited (Z.succ n))).
    rewrite <- Hrun. apply reachable_request, IH. lia.
Qed.

Lemma db_a_foo_reachable (c : Z) :
  0 <= c <= INT_MAX -> reachable (db_a_foo c).
Proof.
  intros [Hlo Hhi]. revert Hhi. pattern c. apply natlike_ind; [| | exact Hlo].
  - intros _.
    change (db_a_foo 0)
      with (snd (Ok (created req_a_foo "foo"), db_a_foo 0)).
    replace (Ok (created req_a_foo "foo"), db_a_foo 0)
      with (run (handler (PostShorten req_a_foo)) 100 empty_db)
      by (vm_compute; reflexivity).
    apply reachable_request, reachable_empty.
  - intros n Hn IH Hhi.
    assert (Hrun : run (handler (GetCode "foo")) 200 (db_a_foo n)
                   = (Ok (mkResponse 302 (Location "https://example.com/a")),
                      db_a_foo (Z.succ n))).
    { cbn [handler]. unfold db_a_foo.
      rewrite (one_row_visit (row_a_foo n) 2 200 "foo");
        [| reflexivity | now left | cbn; lia].
      assert (E' : (Z.succ n =? 0) = false) by (apply Z.eqb_neq; lia).
      unfold touch, row_a_foo. cbn. rewrite E'.
      now rewrite Z.add_1_r. }
    change (db_a_foo (Z.succ n))
      with (snd (Ok (mkResponse 302 (Location "https://example.com/a")),
                 db_a_foo (Z.succ n))).
    rewrite <- Hrun. apply reachable_request, IH. lia.
Qed.

(** C2, as stated, fails, in three ways.  The counter is an [INTEGER]: on
    a record visited 2147483647 times the [UPDATE] is rejected, the key is
    answered 500 and nothing changes.  A key can be the alias of one record
    and the short code of another: [43cc12e] is the alias of the record of
    url a and the short code of the record of url b, and a visit counts
    for one of them only, the one the lookup returns first; in whichever
    order the two rows are met, the other record has the key and is left
    as it was.  And a key with a zero byte, which matches no record, is
    answered 500, not 404. *)
Lemma redirect_counter_limit_counterexample :
  reachable (db_visited 2147483647)
  /\ first_match "cd69b81" (db_visited 2147483647)
     = Some (row_a_visited 2147483647)
  /\ run (redirect "cd69b81") 300 (db_visited 2147483647)
     = (Ok server_error, db_visited 2147483647)
  /\ run (shorten req_b) 101
         (snd (run (shorten req_a_as_b) 100 empty_db))
     = (Ok (created req_b "43cc12e"), mkDb [row_a_as_b; row_b] 3)
  /\ key_of "43cc12e" row_a_as_b /\ key_of "43cc12e" row_b
  /\ fst (run (redirect "43cc12e") 102 (mkDb [row_a_as_b; row_b] 3))
     = Ok (mkResponse 302 (Location "https://example.com/a"))
  /\ In row_b
        (rows (snd (run (redirect "43cc12e") 102
                        (mkDb [row_a_as_b; row_b] 3))))
  /\ fst (run (redirect "43cc12e") 102 (mkDb [row_b; row_a_as_b] 3))
     = Ok (mkResponse 302 (Location "https://example.com/b"))
  /\ In row_a_as_b
        (rows (snd (run (redirect "43cc12e") 102
                        (mkDb [row_b; row_a_as_b] 3))))
  /\ (forall r, In r (rows db_a) -> ~ key_of nul r)
  /\ run (redirect nul) 100 db_a = (Ok server_error, db_a).
Proof.
  split; [apply db_visited_reachable; unfold INT_MAX; lia |].
  split; [vm_compute; reflexivity |].
  split; [vm_compute; reflexivity |].
  split; [vm_compute; reflexivity |].
  split; [now left |].
  split; [now right |].
  split; [vm_compute; reflexivity |].
  split; [vm_compute; auto |].
  split; [vm_compute; reflexivity |].
  split; [vm_compute; auto |].
  split; [| vm_compute; reflexivity].
  intros r [<- | []] [H | H]; discriminate H.
Qed.

(** C2 (amended): for a key without a zero byte that is the alias or short
    code of exactly one record, whose counter is below 2147483647,
    [GET /:code] answers with the redirection to the record's original url
    and the store changes in that record only: its counter is one more and
    its last access is the current time.  For a key without a zero byte
    that no record has, the answer is 404 and the store is unchanged. *)
Theorem redirect_counts_once (code : string) (now : Z) (db : Db) :
  wf db -> has_nul code = false ->
  (forall r, only_match code r db -> access_count r < INT_MAX ->
     exists pre post,
       rows db = (pre ++ r :: post)%list
       /\ fst (run (redirect code) now db)
          = Ok (mkResponse 302 (Location (original_url r)))
       /\ urls_id_seq (snd (run (redirect code) now db)) = urls_id_seq db
       /\ Permutation
            (rows (snd (run (redirect code) now db)))
            (pre ++
               mkRow (id r) (original_url r) (short_code r) (alias r)
                     (created_at r) (access_count r + 1) (Some now)
               :: post))
  /\ ((forall r, In r (rows db) -> ~ key_of code r) ->
      run (redirect code) now db
      = (Ok (not_found "Short URL not found"), db)).
Proof.
  intros Hwf Hnul. split.
  - intros r (Hin & Hkey & Huniq) Hlt.
    pose proof (first_match_unique code db r Hin Hkey Huniq) as E.
    destruct (redirect_outcomes code now db Hwf)
      as [(_ & E' & _) | [(r' & E' & Hge & _)
         | [(r' & pre & post & _ & E' & _ & Hrows & Hrun) | (Hn & _)]]];
      try (rewrite E' in E; try discriminate; injection E as ->);
      [lia | | congruence].
    exists pre, post. rewrite Hrun. cbn [fst snd rows urls_id_seq].
    split; [exact Hrows | split; [reflexivity | split; [reflexivity |]]].
    rewrite app_assoc. rewrite <- Permutation_cons_append.
    apply Permutation_middle.
  - intros Hnone. apply first_match_none in Hnone.
    now rewrite run_redirect, Hnul, Hnone.
Qed.

Lemma redirect_counts_once_witness :
  wf db_a /\ has_nul "cd69b81" = false
  /\ only_match "cd69b81" (row_a_visited 0) db_a
  /\ access_count (row_a_visited 0) < INT_MAX
  /\ fst (run (redirect "cd69b81") 200 db_a)
     = Ok (mkResponse 302 (Location "https://example.com/a"))
  /\ has_nul "abc" = false
  /\ run (redirect "abc") 200 db_a
     = (Ok (not_found "Short URL not found"), db_a).
Proof.
  assert (Hwf : wf db_a).
  { apply reachable_wf. apply (db_visited_reachable 0). unfold INT_MAX. lia. }
  assert (Honly : only_match "cd69b81" (row_a_visited 0) db_a).
  { split; [simpl; left; reflexivity | split; [now right |]].
    intros x [<- | []] _. reflexivity. }
  assert (Hlt : access_count (row_a_visited 0) < INT_MAX) by reflexivity.
  assert (Hnone : forall r, In r (rows db_a) -> ~ key_of "abc" r)
    by (intros r [<- | []] [H | H]; discriminate H).
  split; [exact Hwf | split; [reflexivity | split; [exact Honly |]]].
  split; [exact Hlt |].
  destruct (proj1 (redirect_counts_once "cd69b81" 200 db_a Hwf eq_refl)
                  (row_a_visited 0) Honly Hlt)
    as (pre & post & _ & Hresp & _).
  split; [exact Hresp | split; [reflexivity |]].
  exact (proj2 (redirect_counts_once "abc" 200 db_a Hwf eq_refl) Hnone).
Defined.

(** ** C7: one lookup rule, by alias or by short code *)

(** C7, as stated, fails.  Nothing keeps an alias apart from the short
    codes of other records.  When url b is stored under the alias
    [cd69b81] and url a, whose short code that is, under the alias [foo],
    the two records have an alias and a short code each and share the key
    [cd69b81].  The lookup of that key answers with the row it meets first,
    for the redirection and for the statistics alike: in the order the rows
    were stored, the short code of the record of url a leads to url b; in
    the other order, the alias of the record of url b leads to url a.  And
    a record with an alias and a short code whose counter is at 2147483647
    is resolved by neither of them: both are answered 500. *)
Lemma lookup_symmetry_counterexample :
  run (shorten req_b_as_a) 100 empty_db
  = (Ok (created req_b_as_a "cd69b81"), mkDb [row_b_as_a] 2)
  /\ run (shorten req_a_foo) 101 (mkDb [row_b_as_a] 2)
     = (Ok (created req_a_foo "foo"), mkDb [row_b_as_a; row_a_foo_second] 3)
  /\ alias row_a_foo_second = Some "foo"
  /\ short_code row_a_foo_second = "cd69b81"
  /\ original_url row_a_foo_second = "https://example.com/a"
  /\ alias row_b_as_a = Some "cd69b81"
  /\ short_code row_b_as_a = "43cc12e"
  /\ original_url row_b_as_a = "https://example.com/b"
  /\ fst (run (redirect "cd69b81") 102
              (mkDb [row_b_as_a; row_a_foo_second] 3))
     = Ok (mkResponse 302 (Location "https://example.com/b"))
  /\ fst (run (stats "cd69b81") 102 (mkDb [row_b_as_a; row_a_foo_second] 3))
     = Ok (mkResponse 200 (StatsBody (stats_of row_b_as_a)))
  /\ fst (run (redirect "cd69b81") 102
              (mkDb [row_a_foo_second; row_b_as_a] 3))
     = Ok (mkResponse 302 (Location "https://example.com/a"))
  /\ fst (run (stats "cd69b81") 102 (mkDb [row_a_foo_second; row_b_as_a] 3))
     = Ok (mkResponse 200 (StatsBody (stats_of row_a_foo_second)))
  /\ reachable (db_a_foo 2147483647)
  /\ fst (run (redirect "foo") 300 (db_a_foo 2147483647)) = Ok server_error
  /\ fst (run (redirect "cd69b81") 300 (db_a_foo 2147483647))
     = Ok server_error.
Proof.
  repeat (split; [vm_compute; reflexivity |]).
  split; [apply db_a_foo_reachable; unfold INT_MAX; lia |].
  vm_compute. split; reflexivity.
Qed.

(** C7 (amended): a record is among the rows that a lookup by its alias
    or by its short code selects (a stored key has no zero byte), in
    [GET /:code] and in [GET /stats/:code], which select the same rows;
    when no other record has that key as alias or short code, the
    statistics answered are the record's own and, its counter being below
    2147483647, the redirection goes to its original url. *)
Theorem lookup_by_alias_or_code
    (db : Db) (r : UrlRow) (key : string) (now : Z) :
  wf db -> In r (rows db) -> key_of key r -> has_nul key = false ->
  In (id r, original_url r) (select_id_url_by_code key db)
  /\ In (stats_of r) (select_stats_by_code key db)
  /\ map snd (select_id_url_by_code key db)
     = map st_original_url (select_stats_by_code key db)
  /\ ((forall r', In r' (rows db) -> key_of key r' -> r' = r) ->
      fst (run (stats key) now db)
      = Ok (mkResponse 200 (StatsBody (stats_of r)))
      /\ (access_count r < INT_MAX ->
          fst (run (redirect key) now db)
          = Ok (mkResponse 302 (Location (original_url r))))).
Proof.
  intros Hwf Hin Hkey Hnul.
  assert (Hsel : In r (filter (fun x => alias_is key x
                                        || String.eqb (short_code x) key)
                              (rows db))).
  { apply filter_In. split; [exact Hin | now apply key_of_spec]. }
  split; [| split; [| split]].
  - unfold select_id_url_by_code.
    now apply (in_map (fun x => (id x, original_url x))).
  - unfold select_stats_by_code. now apply in_map.
  - unfold select_id_url_by_code, select_stats_by_code.
    rewrite !map_map. reflexivity.
  - intros Huniq.
    pose proof (first_match_unique key db r Hin Hkey Huniq) as Hfirst.
    split.
    + now rewrite run_stats, Hnul, Hfirst.
    + intros Hlt.
      destruct (redirect_outcomes key now db Hwf)
        as [(_ & E & _) | [(r' & E & Hge & _)
           | [(r' & pre & post & _ & E & _ & _ & ->) | (Hn & _)]]];
        try (rewrite E in Hfirst; try discriminate; injection Hfirst as ->);
        [lia | reflexivity | congruence].
Qed.

Lemma lookup_by_alias_or_code_witness :
  wf (db_a_foo 0)
  /\ In (row_a_foo 0) (rows (db_a_foo 0))
  /\ key_of "foo" (row_a_foo 0)
  /\ key_of "cd69b81" (row_a_foo 0)
  /\ fst (run (stats "foo") 200 (db_a_foo 0))
     = Ok (mkResponse 200 (StatsBody (stats_of (row_a_foo 0))))
  /\ fst (run (redirect "foo") 200 (db_a_foo 0))
     = Ok (mkResponse 302 (Location "https://example.com/a"))
  /\ fst (run (redirect "cd69b81") 200 (db_a_foo 0))
     = Ok (mkResponse 302 (Location "https://example.com/a")).
Proof.
  assert (Hwf : wf (db_a_foo 0)).
  { apply reachable_wf, db_a_foo_reachable. unfold INT_MAX. lia. }
  assert (Hin : In (row_a_foo 0) (rows (db_a_foo 0)))
    by (simpl; left; reflexivity).
  assert (Halias : key_of "foo" (row_a_foo 0)) by (left; reflexivity).
  assert (Hcode : key_of "cd69b81" (row_a_foo 0)) by (right; reflexivity).
  assert (Hlt : access_count (row_a_foo 0) < INT_MAX) by reflexivity.
  assert (Honly : forall key r', In r' (rows (db_a_foo 0)) ->
                                 key_of key r' -> r' = row_a_foo 0)
    by (intros key r' [<- | []] _; reflexivity).
  split; [exact Hwf | split; [exact Hin |]].
  split; [exact Halias | split; [exact Hcode |]].
  destruct (lookup_by_alias_or_code _ _ "foo" 200 Hwf Hin Halias eq_refl)
    as (_ & _ & _ & Ha).
  destruct (lookup_by_alias_or_code _ _ "cd69b81" 200 Hwf Hin Hcode eq_refl)
    as (_ & _ & _ & Hc).
  destruct (Ha (Honly "foo")) as [Hstats Hredir].
  destruct (Hc (Honly "cd69b81")) as [_ Hredir'].
  split; [exact Hstats | split; [exact (Hredir Hlt) | exact (Hredir' Hlt)]].
Defined.

(** ** C9: the access counter *)

Lemma find_app {A : Type} (P : A -> bool) (l l' : list A) :
  find P (l ++ l')
  = match find P l with
    | Some x => Some x
    | None => find P l'
    end.
Proof.
  induction l as [| y l IH]; cbn [app find]; [reflexivity |].
  now destruct (P y).
Qed.

Lemma find_id_touch (now : Z) (i : Z) (pre post : list UrlRow) (r : UrlRow) :
  NoDup (map id (pre ++ r :: post)) ->
  find (fun x => id x =? i) (pre ++ post ++ [touch now r])
  = if id r =? i then Some (touch now r)
    else find (fun x => id x =? i) (pre ++ r :: post).
Proof.
  intros Hnd. rewrite !find_app. cbn [find touch id].
  destruct (id r =? i) eqn:Er.
  - apply Z.eqb_eq in Er.
    assert (Hother : forall l, (forall x, In x l -> In x pre \/ In x post) ->
              find (fun x => id x =? i) l = None).
    { intros l Hl. apply find_none_iff. intros x Hx. apply Z.eqb_neq.
      intros E. rewrite map_app in Hnd. cbn [map] in Hnd.
      apply NoDup_remove_2 in Hnd. apply Hnd.
      rewrite Er, <- E, in_app_iff.
      destruct (Hl x Hx); [left | right]; now apply in_map. }
    rewrite (Hother pre), (Hother post); auto.
  - destruct (find (fun x => id x =? i) pre); [reflexivity |].
    now destruct (find (fun x => id x =? i) post).
Qed.

Lemma count_of_touch (now : Z) (i : Z) (pre post : list UrlRow) (r : UrlRow)
    (sq : Z) :
  NoDup (map id (pre ++ r :: post)) ->
  count_of i (mkDb (pre ++ post ++ [touch now r]) sq)
  = if id r =? i then Some (access_count r + 1)
    else count_of i (mkDb (pre ++ r :: post) sq).
Proof.
  intros Hnd. unfold count_of. cbn [rows].
  rewrite (find_id_touch now i pre post r Hnd).
  now destruct (id r =? i).
Qed.

Lemma count_of_same_rows (i : Z) (db db' : Db) :
  rows db' = rows db -> count_of i db' = count_of i db.
Proof. unfold count_of. now intros ->. Qed.

Lemma count_of_insert (i : Z) (db : Db) (r : UrlRow) (sq : Z) :
  count_of i (mkDb (rows db ++ [r]) sq)
  = match count_of i db with
    | Some c => Some c
    | None => if id r =? i then Some (access_count r) else None
    end.
Proof.
  unfold count_of. cbn [rows].
  destruct (find (fun x => id x =? i) (rows db)) as [x |] eqn:E.
  - now rewrite (find_app_some _ _ [r] _ E).
  - rewrite (find_app_none _ _ r E). now destruct (id r =? i).
Qed.

Lemma count_of_first_match (key : string) (db : Db) (r : UrlRow) :
  wf db -> first_match key db = Some r ->
  count_of (id r) db = Some (access_count r).
Proof.
  intros Hwf E. apply first_match_some in E as [Hin _].
  unfold count_of.
  destruct (find (fun x => id x =? id r) (rows db)) as [x |] eqn:Ex.
  - apply find_some in Ex as [Hx Hid]. apply Z.eqb_eq in Hid.
    now rewrite (NoDup_map_inj id (rows db) x r (wf_ids db Hwf) Hx Hin Hid).
  - rewrite find_none_iff in Ex. specialize (Ex r Hin).
    now rewrite Z.eqb_refl in Ex.
Qed.

(** What a request does to the counters, by the answer it gets. *)
Lemma handler_effect (rq : Request) (now : Z) (db : Db) :
  wf db ->
  (* nothing written *)
  (rows (snd (run (handler rq) now db)) = rows db
   /\ forall url, fst (run (handler rq) now db)
                  <> Ok (mkResponse 302 (Location url)))
  (* one record added *)
  \/ (exists r sq,
         snd (run (handler rq) now db) = mkDb (rows db ++ [r]) sq
         /\ access_count r = 0
         /\ forall url, fst (run (handler rq) now db)
                        <> Ok (mkResponse 302 (Location url)))
  (* one record visited *)
  \/ (exists code r pre post,
         rq = GetCode code
         /\ first_match code db = Some r
         /\ rows db = (pre ++ r :: post)%list
         /\ run (handler rq) now db
            = (Ok (mkResponse 302 (Location (original_url r))),
               mkDb (pre ++ post ++ [touch now r]) (urls_id_seq db))).
Proof.
  intros Hwf. destruct rq as [req | code | code]; cbn [handler].
  - destruct (shorten_outcomes req now db)
      as [(r & _ & ->) | [(_ & a & r & _ & _ & ->)
         | [(_ & _ & _ & ->) | (_ & ->)]]].
    + left. split; [reflexivity | discriminate].
    + left. split; [reflexivity | discriminate].
    + destruct (insert_outcome_cases req now db)
        as [(rs & _ & ->) | (db' & -> & Hrows)].
      * right. left. eexists. eexists.
        split; [reflexivity | split; [reflexivity | discriminate]].
      * left. split; [exact Hrows | discriminate].
    + left. split; [reflexivity | discriminate].
  - destruct (redirect_outcomes code now db Hwf)
      as [(_ & _ & ->) | [(r & _ & _ & ->)
         | [(r & pre & post & _ & E & _ & Hrows & ->) | (_ & ->)]]].
    + left. split; [reflexivity | discriminate].
    + left. split; [reflexivity | discriminate].
    + right. right. now exists code, r, pre, post.
    + left. split; [reflexivity | discriminate].
  - rewrite run_stats. left. split; [reflexivity |].
    intros url. cbn [fst].
    destruct (has_nul code); [discriminate |].
    destruct (first_match code db); discriminate.
Qed.

(** C9: the counters are never negative; a record starts at 0; serving a
    request leaves the counter of every record as it was or one higher;
    a request answered by a redirection raised the counter of the record it
    was redirected to, by one, and no other counter; a request answered
    otherwise (a created or known url, a conflict, the statistics, 404, 500)
    raised none. *)
Theorem access_count_only_increases (rq : Request) (now : Z) (db : Db) :
  wf db ->
  Forall (fun r => 0 <= access_count r) (rows (snd (run (handler rq) now db)))
  /\ (forall i c, count_of i db = Some c ->
        count_of i (snd (run (handler rq) now db)) = Some c
        \/ count_of i (snd (run (handler rq) now db)) = Some (c + 1))
  /\ (forall i c, count_of i db = None ->
        count_of i (snd (run (handler rq) now db)) = Some c -> c = 0)
  /\ (forall url,
        fst (run (handler rq) now db) = Ok (mkResponse 302 (Location url)) ->
        exists code r,
          rq = GetCode code /\ first_match code db = Some r
          /\ url = original_url r
          /\ count_of (id r) db = Some (access_count r)
          /\ count_of (id r) (snd (run (handler rq) now db))
             = Some (access_count r + 1)
          /\ forall i, i <> id r ->
               count_of i (snd (run (handler rq) now db)) = count_of i db)
  /\ ((forall url,
         fst (run (handler rq) now db) <> Ok (mkResponse 302 (Location url))) ->
      forall i c, count_of i db = Some c ->
                  count_of i (snd (run (handler rq) now db)) = Some c).
Proof.
  intros Hwf. split.
  { pose proof (wf_counts _ (wf_handler rq now db Hwf)) as H.
    eapply Forall_impl; [| exact H]. cbn. intros r Hr. lia. }
  destruct (handler_effect rq now db Hwf)
    as [(Hrows & H302) | [(r & sq & Hdb & Hzero & H302)
                         | (code & r & pre & post & -> & E & Hrows & Hrun)]].
  - (* nothing written *)
    assert (Hsame : forall i, count_of i (snd (run (handler rq) now db))
                              = count_of i db)
      by (intros i; now apply count_of_same_rows).
    repeat split.
    + intros i c Hc. left. now rewrite Hsame.
    + intros i c Hnone Hc. rewrite Hsame in Hc. congruence.
    + intros url Hurl. now destruct (H302 url).
    + intros _ i c Hc. now rewrite Hsame.
  - (* one record added *)
    rewrite Hdb. repeat split.
    + intros i c Hc. left. now rewrite count_of_insert, Hc.
    + intros i c Hnone. rewrite count_of_insert, Hnone.
      destruct (id r =? i); congruence.
    + intros url Hurl. now destruct (H302 url).
    + intros _ i c Hc. now rewrite count_of_insert, Hc.
  - (* one record visited *)
    rewrite Hrun. cbn [fst snd].
    assert (Hnd : NoDup (map id (pre ++ r :: post)))
      by (rewrite <- Hrows; apply Hwf).
    assert (Hdb : mkDb (pre ++ r :: post) (urls_id_seq db) = db)
      by (destruct db; cbn in *; now subst).
    assert (Hat : forall i,
               count_of i
                 (mkDb (pre ++ post ++ [touch now r]) (urls_id_seq db))
               = if id r =? i then Some (access_count r + 1)
                 else count_of i db).
    { intros i. now rewrite count_of_touch, Hdb. }
    pose proof (count_of_first_match code db r Hwf E) as Hr.
    repeat split.
    + intros i c Hc. rewrite Hat.
      destruct (id r =? i) eqn:Ei; [| now left].
      apply Z.eqb_eq in Ei. subst i. right. congruence.
    + intros i c Hnone. rewrite Hat.
      destruct (id r =? i) eqn:Ei; [| congruence].
      apply Z.eqb_eq in Ei. subst i. congruence.
    + intros url [= <-]. exists code, r.
      repeat split; try assumption.
      * now rewrite Hat, Z.eqb_refl.
      * intros i Hi. rewrite Hat.
        destruct (id r =? i) eqn:Ei; [| reflexivity].
        apply Z.eqb_eq in Ei. congruence.
    + intros Hno. now destruct (Hno (original_url r)).
Qed.

(** A record just created starts at 0 and has no last access. *)
Lemma created_record_starts_at_zero (req : ShortenReq) (now : Z) (db : Db)
    (path : string) :
  fst (run (shorten req) now db) = Ok (created req path) ->
  exists r,
    rows (snd (run (shorten req) now db)) = (rows db ++ [r])%list
    /\ original_url r = body_url req
    /\ access_count r = 0 /\ last_accessed r = None /\ created_at r = now.
Proof.
  destruct (shorten_outcomes req now db)
    as [(r & _ & ->) | [(_ & a & r & _ & _ & ->)
       | [(_ & _ & _ & ->) | (_ & ->)]]];
    try discriminate.
  destruct (insert_outcome_cases req now db)
    as [(rs & _ & ->) | (db' & -> & _)]; [| discriminate].
  intros _. eexists. cbn [snd rows]. repeat split.
Qed.

Lemma access_count_only_increases_witness :
  wf db_a
  /\ Forall (fun r => 0 <= access_count r)
            (rows (snd (run (handler (GetCode "cd69b81")) 200 db_a)))
  /\ count_of 1 db_a = Some 0
  /\ (count_of 1 (snd (run (handler (GetCode "cd69b81")) 200 db_a)) = Some 0
      \/ count_of 1 (snd (run (handler (GetCode "cd69b81")) 200 db_a))
         = Some (0 + 1))
  /\ (exists code r,
         GetCode "cd69b81" = GetCode code
         /\ first_match code db_a = Some r
         /\ "https://example.com/a" = original_url r
         /\ count_of (id r) db_a = Some (access_count r)
         /\ count_of (id r) (snd (run (handler (GetCode "cd69b81")) 200 db_a))
            = Some (access_count r + 1)
         /\ forall i, i <> id r ->
              count_of i (snd (run (handler (GetCode "cd69b81")) 200 db_a))
              = count_of i db_a).
Proof.
  assert (Hwf : wf db_a).
  { apply reachable_wf. apply (db_visited_reachable 0). unfold INT_MAX. lia. }
  assert (Hcount : count_of 1 db_a = Some 0) by reflexivity.
  assert (H302 : fst (run (handler (GetCode "cd69b81")) 200 db_a)
                 = Ok (mkResponse 302 (Location "https://example.com/a")))
    by (vm_compute; reflexivity).
  destruct (access_count_only_increases (GetCode "cd69b81") 200 db_a Hwf)
    as (Hpos & Hmono & _ & Honce & _).
  split; [exact Hwf | split; [exact Hpos | split; [exact Hcount |]]].
  split; [exact (Hmono 1 0 Hcount) |].
  exact (Honce "https://example.com/a" H302).
Defined.

(** ** The scenario of the specification, section 8 *)

Example scenario :
  run (shorten req_a) 100 empty_db = (Ok (created req_a "cd69b81"), db_a)
  /\ run (shorten req_a) 150 db_a
     = (Ok (already_exists req_a "cd69b81"), db_a)
  /\ run (redirect "cd69b81") 200 db_a
     = (Ok (mkResponse 302 (Location "https://example.com/a")), db_visited 1)
  /\ fst (run (stats "cd69b81") 250 (db_visited 1))
     = Ok (mkResponse 200
             (StatsBody (mkStats "https://example.com/a" "cd69b81" None 100 1
                                 (Some 200))))
  /\ run (redirect "nonexistent") 300 (db_visited 1)
     = (Ok (not_found "Short URL not found"), db_visited 1).
Proof. vm_compute. repeat split. Qed.

(** * Beyond one request: the statements, the schedule, the routes *)

(** ** What every statement keeps *)

Lemma insert_url_cases (url code : string) (a : option string) (now : Z)
    (db : Db) :
  (exists e db',
      insert_url url code a now db = (Err e, db')
      /\ rows db' = rows db
      /\ (urls_id_seq db' = urls_id_seq db
          \/ urls_id_seq db' = urls_id_seq db + 1))
  \/ (insert_url url code a now db
      = (Ok [(code, a)],
         mkDb (rows db ++ [mkRow (urls_id_seq db) url code a now 0 None])
              (urls_id_seq db + 1))
      /\ urls_id_seq db <= INT_MAX
      /\ (char_length code <= 10)%nat
      /\ ~ In (urls_id_seq db) (map id (rows db))
      /\ ~ In code (map short_code (rows db))
      /\ (forall x, a = Some x ->
            (char_length x <= 30)%nat /\ ~ In x (aliases (rows db))
            /\ has_nul x = false)
      /\ has_nul url = false /\ has_nul code = false).
Proof.
  unfold insert_url.
  match goal with |- context [if ?b then _ else _] => destruct b eqn:Enul end.
  { left. exists InvalidText, db. auto. }
  destruct (INT_MAX <? urls_id_seq db) eqn:Eseq.
  { left. exists SequenceLimit, db. auto. }
  match goal with |- context [if ?b then _ else _] => destruct b eqn:Elen end.
  { left. eexists. eexists. split; [reflexivity |]. cbn. auto. }
  match goal with |- context [if ?b then _ else _] => destruct b eqn:Euniq end.
  { left. eexists. eexists. split; [reflexivity |]. cbn. auto. }
  right. split; [reflexivity |].
  apply orb_false_iff in Enul as [Enul Enula].
  apply orb_false_iff in Enul as [Enulu Enulc].
  apply orb_false_iff in Elen as [Ecode Ealias].
  apply orb_false_iff in Euniq as [Euniq Ea].
  apply orb_false_iff in Euniq as [Eid Ec].
  apply Z.ltb_ge in Eseq. apply Nat.ltb_ge in Ecode.
  repeat split; try assumption.
  - rewrite in_map_iff. intros (r & E & Hr).
    rewrite <- not_true_iff_false in Eid. apply Eid.
    apply existsb_exists. exists r. split; [exact Hr | lia].
  - rewrite in_map_iff. intros (r & E & Hr).
    rewrite <- not_true_iff_false in Ec. apply Ec.
    apply existsb_exists. exists r. split; [exact Hr |].
    now apply String.eqb_eq.
  - subst a. now apply Nat.ltb_ge in Ealias.
  - subst a. unfold aliases. rewrite in_flat_map. intros (r & Hr & Hx).
    rewrite <- not_true_iff_false in Ea. apply Ea.
    apply existsb_exists. exists r. split; [exact Hr |].
    unfold alias_is. destruct (alias r) as [y |]; [| contradiction].
    destruct Hx as [<- | []]. apply String.eqb_refl.
  - now subst a.
Qed.

Lemma aliases_app (l l' : list UrlRow) :
  aliases (l ++ l') = (aliases l ++ aliases l')%list.
Proof. unfold aliases. now rewrite flat_map_app. Qed.

Lemma rewritten_perm (i now : Z) (l : list UrlRow) :
  Permutation
    (filter (fun r => negb (id r =? i)) l
     ++ map (touch now) (filter (fun r => id r =? i) l))
    (map (fun r => if id r =? i then touch now r else r) l).
Proof.
  induction l as [| r l IH]; [constructor |].
  cbn [filter map]. destruct (id r =? i); cbn [negb map app].
  - rewrite <- Permutation_middle. now constructor.
  - now constructor.
Qed.

Lemma map_touch_if {B : Type} (g : UrlRow -> B) (i now : Z)
    (l : list UrlRow) :
  (forall r, g (touch now r) = g r) ->
  map g (map (fun r => if id r =? i then touch now r else r) l) = map g l.
Proof.
  intros Hg. rewrite map_map. apply map_ext.
  intros r. now destruct (id r =? i).
Qed.

Lemma aliases_perm (l l' : list UrlRow) :
  Permutation l l' -> Permutation (aliases l) (aliases l').
Proof.
  unfold aliases. induction 1 as [| x l l' _ IH | x y l | l l' l'' _ IH1 _ IH2].
  - constructor.
  - cbn [flat_map]. now apply Permutation_app_head.
  - cbn [flat_map]. rewrite !app_assoc. apply Permutation_app_tail.
    apply Permutation_app_comm.
  - now transitivity (flat_map
      (fun r => match alias r with Some a => [a] | None => [] end) l').
Qed.

Lemma aliases_touch_if (i now : Z) (l : list UrlRow) :
  aliases (map (fun r => if id r =? i then touch now r else r) l) = aliases l.
Proof.
  induction l as [| r l IH]; [reflexivity |].
  cbn [map]. change (aliases (?x :: ?t))
    with ((match alias x with Some a => [a] | None => [] end
           ++ aliases t)%list).
  rewrite IH. now destruct (id r =? i).
Qed.

Lemma NoDup_snoc {A : Type} (l : list A) (x : A) :
  NoDup l -> ~ In x l -> NoDup (l ++ [x]).
Proof.
  intros Hl Hx. apply NoDup_app; [exact Hl | repeat constructor; cbn; tauto |].
  intros y Hy [<- | []]. contradiction.
Qed.

Lemma update_access_cases (i now : Z) (db : Db) :
  update_access i now db = (Err NumericOutOfRange, db)
  \/ (update_access i now db
      = (Ok tt,
         mkDb (filter (fun r => negb (id r =? i)) (rows db)
               ++ map (touch now) (filter (fun r => id r =? i) (rows db)))
              (urls_id_seq db))
      /\ forall r, In r (rows db) -> id r = i -> access_count r < INT_MAX).
Proof.
  unfold update_access. destruct (existsb _ (rows db)) eqn:E; [now left |].
  right. split; [reflexivity |]. intros r Hr Hid.
  destruct (Z_lt_le_dec (access_count r) INT_MAX) as [Hlt | Hge];
    [exact Hlt |].
  rewrite <- not_true_iff_false in E. exfalso. apply E.
  apply existsb_exists. exists r. split; [exact Hr |].
  apply andb_true_iff. split; lia.
Qed.

Lemma insert_url_schema_ok (url code : string) (a : option string) (now : Z)
    (db : Db) :
  schema_ok db -> schema_ok (snd (insert_url url code a now db)).
Proof.
  intros [Hids Hbelow Hcodes Haliases Hcounts].
  destruct (insert_url_cases url code a now db)
    as [(e & db' & -> & Hrows & Hseq)
       | (-> & _ & _ & Hid & Hcode & Halias & _)]; cbn [snd].
  - split; rewrite Hrows; try assumption.
    eapply Forall_impl; [| exact Hbelow]. cbn. intros r Hr. lia.
  - split; cbn [rows urls_id_seq].
    + rewrite map_app. now apply NoDup_snoc.
    + apply Forall_app. split.
      * eapply Forall_impl; [| exact Hbelow]. cbn. intros r Hr. lia.
      * repeat constructor. cbn. lia.
    + rewrite map_app. now apply NoDup_snoc.
    + rewrite aliases_app. destruct a as [x |]; cbn.
      * apply NoDup_snoc; [exact Haliases | now apply (Halias x)].
      * now rewrite app_nil_r.
    + apply Forall_app. split; [exact Hcounts |].
      repeat constructor; cbn; unfold INT_MAX; lia.
Qed.

Lemma update_access_schema_ok (i now : Z) (db : Db) :
  schema_ok db -> schema_ok (snd (update_access i now db)).
Proof.
  intros Hok.
  destruct (update_access_cases i now db) as [-> | [-> Hlt]];
    [exact Hok |].
  destruct Hok as [Hids Hbelow Hcodes Haliases Hcounts].
  pose proof (rewritten_perm i now (rows db)) as Hperm.
  split; cbn [snd rows urls_id_seq].
  - apply (Permutation_NoDup (Permutation_sym (Permutation_map id Hperm))).
    now rewrite map_touch_if.
  - apply (Permutation_Forall (Permutation_sym Hperm)).
    apply Forall_map. rewrite Forall_forall in *. intros r Hr.
    specialize (Hbelow r Hr). now destruct (id r =? i).
  - apply (Permutation_NoDup
             (Permutation_sym (Permutation_map short_code Hperm))).
    now rewrite map_touch_if.
  - apply (Permutation_NoDup (Permutation_sym (aliases_perm _ _ Hperm))).
    now rewrite aliases_touch_if.
  - apply (Permutation_Forall (Permutation_sym Hperm)).
    apply Forall_map. rewrite Forall_forall in *. intros r Hr.
    specialize (Hcounts r Hr). destruct (id r =? i) eqn:E; [| exact Hcounts].
    apply Z.eqb_eq in E. specialize (Hlt r Hr E). cbn. lia.
Qed.

Lemma exec_schema_ok {A : Type} (q : Sql A) (now : Z) (db : Db) :
  schema_ok db -> schema_ok (snd (exec q now db)).
Proof.
  destruct q; cbn [exec];
    try (match goal with |- context [if ?b then _ else _] => destruct b end;
         now cbn [snd]).
  - apply insert_url_schema_ok.
  - apply update_access_schema_ok.
Qed.

Lemma step_schema_ok {R : Type} (p : Prog R) (now : Z) (db : Db) :
  schema_ok db -> schema_ok (snd (step p now db)).
Proof.
  destruct p as [r | e | A q k]; cbn [step snd]; try trivial.
  intros Hok. pose proof (exec_schema_ok q now db Hok) as H.
  now destruct (exec q now db).
Qed.

Lemma schema_ok_empty : schema_ok empty_db.
Proof. split; cbn; constructor. Qed.

Lemma same_record_refl (r : UrlRow) : same_record r r.
Proof. repeat split. Qed.

Lemma same_record_trans (r1 r2 r3 : UrlRow) :
  same_record r1 r2 -> same_record r2 r3 -> same_record r1 r3.
Proof.
  unfold same_record. intros (? & ? & ? & ? & ?) (? & ? & ? & ? & ?).
  repeat split; congruence.
Qed.

Lemma exec_keeps_records {A : Type} (q : Sql A) (now : Z) (db : Db)
    (r : UrlRow) :
  In r (rows db) ->
  exists r', In r' (rows (snd (exec q now db)))
             /\ same_record r r' /\ access_count r <= access_count r'.
Proof.
  intros Hr.
  assert (Hsame : exists r', In r' (rows db) /\ same_record r r'
                             /\ access_count r <= access_count r').
  { exists r. split; [exact Hr | split; [apply same_record_refl | lia]]. }
  destruct q; cbn [exec];
    try (match goal with |- context [if ?b then _ else _] => destruct b end;
         exact Hsame).
  - destruct (insert_url_cases url code a now db)
      as [(e & db' & -> & Hrows & _) | (-> & _)]; cbn [snd].
    + now rewrite Hrows.
    + exists r. cbn [rows]. rewrite in_app_iff.
      split; [now left | split; [apply same_record_refl | lia]].
  - destruct (update_access_cases i now db) as [-> | [-> _]];
      [exact Hsame |].
    cbn [snd rows].
    exists (if id r =? i then touch now r else r). split.
    + rewrite in_app_iff. destruct (id r =? i) eqn:E.
      * right. apply in_map, filter_In. now split.
      * left. apply filter_In. split; [exact Hr | now rewrite E].
    + destruct (id r =? i); cbn.
      * split; [repeat split | lia].
      * split; [apply same_record_refl | lia].
Qed.

Lemma step_keeps_records {R : Type} (p : Prog R) (now : Z) (db : Db)
    (r : UrlRow) :
  In r (rows db) ->
  exists r', In r' (rows (snd (step p now db)))
             /\ same_record r r' /\ access_count r <= access_count r'.
Proof.
  intros Hr. destruct p as [x | e | A q k]; cbn [step snd];
    try (exists r; split; [exact Hr | split; [apply same_record_refl | lia]]).
  pose proof (exec_keeps_records q now db r Hr) as H.
  now destruct (exec q now db).
Qed.

Lemma run_schedule_cons {R : Type} (c : nat) (now : Z)
    (sched : list (nat * Z)) (clients : list (Prog R)) (db : Db) :
  run_schedule ((c, now) :: sched) clients db
  = match nth_error clients c with
    | Some p =>
        run_schedule sched (set_nth c (fst (step p now db)) clients)
                     (snd (step p now db))
    | None => run_schedule sched clients db
    end.
Proof.
  cbn [run_schedule]. destruct (nth_error clients c) as [p |]; [| reflexivity].
  now destruct (step p now db).
Qed.

(** ** Any interleaving of any clients *)

(** X1: whatever clients run, in whatever order their statements reach the
    store, the constraints of the table hold after every statement: the ids
    are distinct and below the sequence, the short codes are distinct, the
    aliases are distinct, and every counter is between 0 and 2147483647. *)
Theorem schedule_keeps_schema {R : Type} (sched : list (nat * Z))
    (clients : list (Prog R)) (db : Db) :
  schema_ok db -> schema_ok (snd (run_schedule sched clients db)).
Proof.
  revert clients db.
  induction sched as [| [c now] sched IH]; intros clients db Hok;
    [exact Hok |].
  rewrite run_schedule_cons.
  destruct (nth_error clients c) as [p |]; [| now apply IH].
  apply IH. now apply step_schema_ok.
Qed.

Lemma schedule_keeps_schema_witness :
  schema_ok empty_db
  /\ schema_ok
       (snd (run_schedule
               [(0%nat, 97); (1%nat, 98); (1%nat, 99); (0%nat, 100);
                (2%nat, 101); (2%nat, 102)]
               [shorten req_a_foo; shorten req_b_foo; redirect "foo"]
               empty_db)).
Proof.
  split; [exact schema_ok_empty |].
  apply (schedule_keeps_schema _ _ empty_db). exact schema_ok_empty.
Defined.

(** X2: no statement of the service removes a record or rewrites its id,
    original url, short code, alias or creation time, and no counter ever
    goes down: under any schedule of any clients, every record of the store
    is still there afterwards, the same up to its access bookkeeping. *)
Theorem schedule_keeps_records {R : Type} (sched : list (nat * Z))
    (clients : list (Prog R)) (db : Db) (r : UrlRow) :
  In r (rows db) ->
  exists r',
    In r' (rows (snd (run_schedule sched clients db)))
    /\ same_record r r' /\ access_count r <= access_count r'.
Proof.
  revert clients db r.
  induction sched as [| [c now] sched IH]; intros clients db r Hr.
  - exists r. split; [exact Hr | split; [apply same_record_refl | lia]].
  - rewrite run_schedule_cons.
    destruct (nth_error clients c) as [p |]; [| now apply IH].
    destruct (step_keeps_records p now db r Hr) as (r1 & Hr1 & Hs1 & Hc1).
    destruct (IH (set_nth c (fst (step p now db)) clients)
                 (snd (step p now db)) r1 Hr1)
      as (r2 & Hr2 & Hs2 & Hc2).
    exists r2. split; [exact Hr2 | split].
    + now apply (same_record_trans r r1 r2).
    + lia.
Qed.

Lemma schedule_keeps_records_witness :
  In (row_a_visited 0) (rows db_a)
  /\ exists r',
       In r' (rows (snd (run_schedule
                           [(0%nat, 200); (1%nat, 201); (0%nat, 202);
                            (1%nat, 203)]
                           [redirect "cd69b81"; shorten req_b] db_a)))
       /\ same_record (row_a_visited 0) r'
       /\ access_count (row_a_visited 0) <= access_count r'.
Proof.
  assert (Hin : In (row_a_visited 0) (rows db_a)) by (simpl; left; reflexivity).
  split; [exact Hin |].
  exact (schedule_keeps_records _ _ db_a _ Hin).
Defined.

(** ** Any interleaving of the three handlers *)

Lemma handler_point_start (rq : Request) : handler_point (handler rq).
Proof.
  destruct rq as [req | code | code]; cbn [handler].
  - apply (hp_shorten req). constructor.
  - constructor.
  - constructor.
Qed.

Lemma step_redirect (code : string) (now : Z) (db : Db) :
  step (redirect code) now db
  = (if has_nul code then Ret server_error
     else
       match select_id_url_by_code code db with
       | [] => Ret (not_found "Short URL not found")
       | (i, url) :: _ => redirect_at_update i url
       end, db).
Proof.
  unfold redirect, step. cbn [try_catch bind client_query exec].
  destruct (has_nul code); [reflexivity |].
  destruct (select_id_url_by_code code db) as [| [i url] rest]; reflexivity.
Qed.

Lemma step_redirect_at_update (i : Z) (url : string) (now : Z) (db : Db) :
  step (redirect_at_update i url) now db
  = (match fst (update_access i now db) with
     | Ok _ => Ret (mkResponse 302 (Location url))
     | Err _ => Ret server_error
     end, snd (update_access i now db)).
Proof.
  unfold redirect_at_update, step. cbn [try_catch bind client_query exec].
  destruct (update_access i now db) as [[u | e] db']; reflexivity.
Qed.

Lemma step_stats (code : string) (now : Z) (db : Db) :
  step (stats code) now db
  = (if has_nul code then Ret server_error
     else
       match select_stats_by_code code db with
       | [] => Ret (not_found "URL not found")
       | row :: _ => Ret (mkResponse 200 (StatsBody row))
       end, db).
Proof.
  unfold stats, step. cbn [try_catch bind client_query exec].
  destruct (has_nul code); [reflexivity |].
  destruct (select_stats_by_code code db); reflexivity.
Qed.

Lemma shorten_point_step (req : ShortenReq) (p : Prog Response) (now : Z)
    (db : Db) :
  shorten_point req p -> shorten_point req (fst (step p now db)).
Proof.
  intros [| a Ha | | r].
  - rewrite step_shorten. cbn [fst].
    destruct (has_nul (body_url req)); [constructor |].
    destruct (select_code_alias_by_url (body_url req) db) as [| [c al] ?];
      [| constructor].
    destruct (or_null (query_alias req)) eqn:E; now constructor.
  - rewrite step_shorten_at_alias. cbn [fst].
    destruct (has_nul a); [constructor |].
    destruct (select_id_by_alias a db); constructor.
  - rewrite step_shorten_at_insert. cbn [fst].
    destruct (fst (insert_url _ _ _ now db)); constructor.
  - constructor.
Qed.

Lemma handler_point_step (p : Prog Response) (now : Z) (db : Db) :
  handler_point p -> handler_point (fst (step p now db)).
Proof.
  intros [req p' Hp | code | i url | code | r].
  - apply (hp_shorten req). now apply shorten_point_step.
  - rewrite step_redirect. cbn [fst].
    destruct (has_nul code); [constructor |].
    destruct (select_id_url_by_code code db) as [| [i url] ?]; constructor.
  - rewrite step_redirect_at_update. cbn [fst].
    destruct (fst (update_access i now db)); constructor.
  - rewrite step_stats. cbn [fst].
    destruct (has_nul code); [constructor |].
    destruct (select_stats_by_code code db); constructor.
  - constructor.
Qed.

Lemma coded_same_rows (db db' : Db) :
  rows db' = rows db -> coded db -> coded db'.
Proof. unfold coded. now intros ->. Qed.

Lemma handler_point_step_coded (p : Prog Response) (now : Z) (db : Db) :
  handler_point p -> coded db -> coded (snd (step p now db)).
Proof.
  intros [req p' Hp | code | i url | code | r] Hc.
  - destruct Hp as [| a Ha | | r].
    + now rewrite step_shorten.
    + now rewrite step_shorten_at_alias.
    + rewrite step_shorten_at_insert. cbn [snd].
      destruct (insert_url_cases (body_url req)
                  (generateShortCode (body_url req) None)
                  (or_null (query_alias req)) now db)
        as [(e & db' & -> & Hrows & _) | (-> & _)]; cbn [snd].
      * now apply (coded_same_rows db).
      * unfold coded. cbn [rows]. apply Forall_app. split; [exact Hc |].
        repeat constructor.
    + exact Hc.
  - now rewrite step_redirect.
  - rewrite step_redirect_at_update. cbn [snd].
    destruct (update_access_cases i now db) as [-> | [-> _]]; [exact Hc |].
    unfold coded in *. cbn [snd rows].
    apply (Permutation_Forall (Permutation_sym (rewritten_perm i now _))).
    apply Forall_map.
    rewrite Forall_forall in *. intros r Hr. specialize (Hc r Hr).
    now destruct (id r =? i).
  - now rewrite step_stats.
  - exact Hc.
Qed.

Lemma Forall_set_nth {A : Type} (P : A -> Prop) (n : nat) (x : A)
    (l : list A) :
  Forall P l -> P x -> Forall P (set_nth n x l).
Proof.
  revert n. induction l as [| y l IH]; intros n Hl Hx; [destruct n; constructor |].
  inversion Hl; subst. destruct n; cbn; constructor; auto.
Qed.

Lemma schedule_keeps_coded (sched : list (nat * Z))
    (clients : list (Prog Response)) (db : Db) :
  Forall handler_point clients -> coded db ->
  coded (snd (run_schedule sched clients db)).
Proof.
  revert clients db.
  induction sched as [| [c now] sched IH]; intros clients db Hps Hc;
    [exact Hc |].
  rewrite run_schedule_cons.
  destruct (nth_error clients c) as [p |] eqn:E; [| now apply IH].
  assert (Hp : handler_point p).
  { rewrite Forall_forall in Hps. apply Hps. eapply nth_error_In, E. }
  apply IH.
  - apply Forall_set_nth; [exact Hps | now apply handler_point_step].
  - now apply handler_point_step_coded.
Qed.

Lemma coded_urls_unique (db : Db) :
  coded db -> NoDup (map short_code (rows db)) ->
  NoDup (map original_url (rows db)).
Proof.
  intros Hc Hnd.
  apply (NoDup_map_inv (fun u => generateShortCode u None)).
  rewrite map_map.
  replace (map (fun r => generateShortCode (original_url r) None) (rows db))
    with (map short_code (rows db)); [exact Hnd |].
  apply map_ext_in. intros r Hr. unfold coded in Hc.
  rewrite Forall_forall in Hc. now apply Hc.
Qed.

(** X3: however the statements of concurrent requests interleave, a url
    never gets a second record: from a store that satisfies the constraints
    of the table and whose short codes are the codes of their urls (the
    empty store, for one), every store reached holds at most one record per
    original url, and its short code is [generateShortCode] of that url. *)
Theorem one_record_per_url_under_any_schedule
    (sched : list (nat * Z)) (rqs : list Request) (db : Db) :
  schema_ok db -> coded db ->
  coded (snd (run_schedule sched (map handler rqs) db))
  /\ NoDup (map original_url
                (rows (snd (run_schedule sched (map handler rqs) db))))
  /\ forall r r',
       In r (rows (snd (run_schedule sched (map handler rqs) db))) ->
       In r' (rows (snd (run_schedule sched (map handler rqs) db))) ->
       original_url r = original_url r' -> r = r'.
Proof.
  intros Hok Hc.
  assert (Hc' : coded (snd (run_schedule sched (map handler rqs) db))).
  { apply schedule_keeps_coded; [| exact Hc].
    apply Forall_map, Forall_forall. intros rq _. apply handler_point_start. }
  assert (Hnd : NoDup (map original_url
                  (rows (snd (run_schedule sched (map handler rqs) db))))).
  { apply coded_urls_unique; [exact Hc' |].
    apply ok_codes. revert Hok. generalize (map handler rqs).
    intros clients Hok. clear Hc Hc'.
    revert clients db Hok.
    induction sched as [| [c now] sched IH]; intros clients db Hok;
      [exact Hok |].
    rewrite run_schedule_cons.
    destruct (nth_error clients c) as [p |]; [| now apply IH].
    apply IH. now apply step_schema_ok. }
  split; [exact Hc' | split; [exact Hnd |]].
  intros r r' Hr Hr' E.
  exact (NoDup_map_inj original_url _ r r' Hnd Hr Hr' E).
Qed.

Lemma one_record_per_url_under_any_schedule_witness :
  schema_ok empty_db /\ coded empty_db
  /\ NoDup (map original_url
       (rows (snd (run_schedule
                     [(0%nat, 97); (1%nat, 98); (0%nat, 100); (1%nat, 101);
                      (2%nat, 102); (2%nat, 103)]
                     (map handler
                          [PostShorten req_a; PostShorten req_a;
                           PostShorten req_b])
                     empty_db)))).
Proof.
  assert (Hc : coded empty_db) by constructor.
  split; [exact schema_ok_empty | split; [exact Hc |]].
  exact (proj1 (proj2 (one_record_per_url_under_any_schedule
                         _ [PostShorten req_a; PostShorten req_a;
                            PostShorten req_b]
                         empty_db schema_ok_empty Hc))).
Defined.

(** ** Concurrent visits of one record *)

Lemma filter_id_none (i : Z) (l : list UrlRow) :
  (forall x, In x l -> (id x =? i) = false) ->
  filter (fun x => negb (id x =? i)) l = l
  /\ filter (fun x => id x =? i) l = [].
Proof.
  induction l as [| y l IH]; intros Hl; [now split |].
  cbn [filter]. rewrite (Hl y (or_introl eq_refl)). cbn [negb].
  destruct IH as [-> ->]; [intros x Hx; apply Hl; now right | now split].
Qed.

Lemma others_not_id (db : Db) (r x : UrlRow) :
  In x (filter (fun y => negb (id y =? id r)) (rows db)) ->
  In x (rows db) /\ (id x =? id r) = false.
Proof.
  intros Hx. apply filter_In in Hx as [Hin Hb].
  split; [exact Hin | now destruct (id x =? id r)].
Qed.

Lemma select_head_first_match (key : string) (db : Db) :
  select_id_url_by_code key db
  = match first_match key db with
    | Some x => (id x, original_url x) :: tl (select_id_url_by_code key db)
    | None => []
    end.
Proof.
  unfold select_id_url_by_code, first_match. rewrite filter_find at 1.
  destruct (find _ (rows db)) as [x |] eqn:E; [| reflexivity].
  cbn [map]. f_equal. rewrite filter_find, E. reflexivity.
Qed.

Lemma first_match_revisited (key : string) (db : Db) (r : UrlRow) (k : Z)
    (t : option Z) :
  only_match key r db ->
  first_match key (revisited db r k t) = Some (visited r k t).
Proof.
  intros (Hin & Hkey & Huniq). unfold first_match, revisited. cbn [rows].
  rewrite find_app.
  replace (find _ (filter _ (rows db))) with (@None UrlRow).
  - cbn [find]. apply key_of_spec in Hkey.
    unfold alias_is in *. cbn [visited alias short_code]. now rewrite Hkey.
  - symmetry. apply find_none_iff. intros x Hx.
    apply others_not_id in Hx as [Hx Hid].
    destruct (alias_is key x || String.eqb (short_code x) key) eqn:E;
      [| reflexivity].
    apply key_of_spec in E. rewrite (Huniq x Hx E), Z.eqb_refl in Hid.
    discriminate.
Qed.

Lemma first_match_visit_store (key : string) (db dbcur : Db) (r : UrlRow)
    (k : Z) :
  only_match key r db -> visit_store db r k dbcur ->
  exists r', first_match key dbcur = Some r'
             /\ id r' = id r /\ original_url r' = original_url r.
Proof.
  intros Honly [[_ ->] | [_ (t & ->)]].
  - exists r. destruct Honly as (Hin & Hkey & Huniq).
    now rewrite (first_match_unique key db r Hin Hkey Huniq).
  - exists (visited r k t). now rewrite first_match_revisited.
Qed.

Lemma step_redirect_visit (key : string) (now : Z) (db dbcur : Db)
    (r : UrlRow) (k : Z) :
  has_nul key = false -> only_match key r db -> visit_store db r k dbcur ->
  step (redirect key) now dbcur
  = (redirect_at_update (id r) (original_url r), dbcur).
Proof.
  intros Hnul Honly Hst.
  destruct (first_match_visit_store key db dbcur r k Honly Hst)
    as (r' & E & Hid & Hurl).
  now rewrite step_redirect, Hnul, select_head_first_match, E, Hid, Hurl.
Qed.

Lemma update_access_visit (now : Z) (db dbcur : Db) (r : UrlRow) (k : Z) :
  wf db -> In r (rows db) -> visit_store db r k dbcur ->
  access_count r + k < INT_MAX ->
  update_access (id r) now dbcur
  = (Ok tt, revisited db r (k + 1) (Some now)).
Proof.
  intros Hwf Hin [[-> ->] | [Hk (t & ->)]] Hlt.
  - destruct (in_split r (rows db) Hin) as (pre & post & Hrows).
    pose proof (wf_ids db Hwf) as Hnd.
    rewrite (update_access_ok now db pre post r Hnd Hrows) by lia.
    unfold revisited. rewrite Hrows in Hnd |- *.
    destruct (filter_id_split pre post r Hnd) as [-> _].
    now rewrite <- app_assoc.
  - unfold update_access, revisited. cbn [rows urls_id_seq].
    set (others := filter (fun x => negb (id x =? id r)) (rows db)).
    assert (Hothers : forall x, In x others -> (id x =? id r) = false).
    { intros x Hx. now apply others_not_id in Hx. }
    destruct (existsb _ _) eqn:E.
    + exfalso. apply existsb_exists in E as (y & Hy & Hb).
      apply andb_true_iff in Hb as [Hid Hmax].
      apply in_app_iff in Hy as [Hy | [<- | []]].
      * rewrite (Hothers y Hy) in Hid. discriminate.
      * cbn in Hmax. lia.
    + rewrite !filter_app.
      destruct (filter_id_none (id r) others Hothers) as [-> ->].
      cbn [filter visited id]. rewrite Z.eqb_refl. cbn [negb map app].
      rewrite app_nil_r. do 3 f_equal.
      unfold touch, visited. cbn. f_equal. f_equal. lia.
Qed.

Lemma zsum_set_nth {A : Type} (f : A -> Z) (c : nat) (p p' : A)
    (l : list A) :
  nth_error l c = Some p ->
  zsum (map f (set_nth c p' l)) = zsum (map f l) - f p + f p'.
Proof.
  revert c. induction l as [| y l IH]; intros [| c] E; try discriminate.
  - injection E as ->. cbn. lia.
  - cbn [nth_error] in E. specialize (IH c E).
    unfold zsum in IH |- *. cbn [set_nth map fold_right]. lia.
Qed.

Lemma zsum_bound {A : Type} (f : A -> Z) (c : nat) (p : A) (l : list A) :
  (forall x, 0 <= f x <= 1) ->
  nth_error l c = Some p -> f p = 0 ->
  zsum (map f l) + 1 <= Z.of_nat (List.length l).
Proof.
  intros Hf. revert c.
  assert (Hall : forall l : list A, zsum (map f l) <= Z.of_nat (List.length l)).
  { induction l0 as [| y l0 IH]; cbn [map zsum fold_right List.length];
      [lia |]. fold (zsum (map f l0)). specialize (Hf y). lia. }
  induction l as [| y l IH]; intros [| c] E Hp; try discriminate.
  - injection E as ->. cbn [map zsum fold_right List.length].
    fold (zsum (map f l)). specialize (Hall l). lia.
  - cbn in E. specialize (IH c E Hp).
    cbn [map zsum fold_right List.length]. fold (zsum (map f l)).
    specialize (Hf y). lia.
Qed.

Lemma zsum_all_one {A : Type} (f : A -> Z) (l : list A) :
  Forall (fun x => f x = 1) l -> zsum (map f l) = Z.of_nat (List.length l).
Proof.
  induction 1 as [| y l Hy _ IH]; [reflexivity |].
  cbn [map zsum fold_right List.length]. fold (zsum (map f l)). lia.
Qed.

Lemma set_nth_length {A : Type} (c : nat) (x : A) (l : list A) :
  List.length (set_nth c x l) = List.length l.
Proof.
  revert c. induction l as [| y l IH]; intros [| c]; cbn; auto.
Qed.

Lemma set_nth_same {A : Type} (c : nat) (x : A) (l : list A) :
  nth_error l c = Some x -> set_nth c x l = l.
Proof.
  revert c. induction l as [| y l IH]; intros [| c] E; try discriminate.
  - now injection E as ->.
  - cbn in E |- *. now rewrite (IH c E).
Qed.

Lemma answered_range {R : Type} (p : Prog R) : 0 <= answered p <= 1.
Proof. destruct p; cbn; lia. Qed.

(** The invariant of the visits: each handler is at one of its stages and
    the record has been counted once for each handler that has answered. *)
Lemma visits_invariant (sched : list (nat * Z)) (db : Db) (r : UrlRow)
    (clients : list (Prog Response)) (dbcur : Db) :
  wf db -> In r (rows db) ->
  Forall (visit_stage db r) clients ->
  access_count r + Z.of_nat (List.length clients) <= INT_MAX ->
  visit_store db r (zsum (map answered clients)) dbcur ->
  Forall (visit_stage db r) (fst (run_schedule sched clients dbcur))
  /\ visit_store db r
       (zsum (map answered (fst (run_schedule sched clients dbcur))))
       (snd (run_schedule sched clients dbcur)).
Proof.
  intros Hwf Hin. revert clients dbcur.
  induction sched as [| [c now] sched IH]; intros clients dbcur Hst Hmax Hdb.
  - cbn. now split.
  - rewrite run_schedule_cons.
    destruct (nth_error clients c) as [p |] eqn:E; [| now apply IH].
    assert (Hp : visit_stage db r p).
    { rewrite Forall_forall in Hst. apply Hst. eapply nth_error_In, E. }
    destruct Hp as [key Hnul Hkey | |].
    + (* the lookup *)
      rewrite (step_redirect_visit key now db dbcur r _ Hnul Hkey Hdb).
      cbn [fst snd]. apply IH.
      * apply Forall_set_nth; [exact Hst | constructor].
      * now rewrite set_nth_length.
      * rewrite (zsum_set_nth _ _ _ _ _ E). cbn [answered].
        unfold redirect, try_catch, bind, client_query. cbn [answered].
        now rewrite Z.sub_0_r, Z.add_0_r.
    + (* the update *)
      rewrite step_redirect_at_update.
      assert (Hroom : access_count r + zsum (map answered clients) < INT_MAX).
      { pose proof (zsum_bound answered c _ clients answered_range E eq_refl).
        lia. }
      rewrite (update_access_visit now db dbcur r _ Hwf Hin Hdb Hroom).
      cbn [fst snd]. apply IH.
      * apply Forall_set_nth; [exact Hst | constructor].
      * now rewrite set_nth_length.
      * rewrite (zsum_set_nth _ _ _ _ _ E).
        unfold redirect_at_update, try_catch, bind, client_query.
        cbn [answered]. rewrite Z.sub_0_r. right. split.
        -- destruct Hdb as [[-> _] | [Hk _]]; lia.
        -- now exists (Some now).
    + (* answered already *)
      cbn [step fst snd]. rewrite (set_nth_same _ _ _ E). now apply IH.
Qed.

Lemma run_schedule_length {R : Type} (sched : list (nat * Z))
    (clients : list (Prog R)) (db : Db) :
  List.length (fst (run_schedule sched clients db)) = List.length clients.
Proof.
  revert clients db.
  induction sched as [| [c now] sched IH]; intros clients db; [reflexivity |].
  rewrite run_schedule_cons.
  destruct (nth_error clients c); [| apply IH].
  now rewrite IH, set_nth_length.
Qed.

(** X4: no visit is lost.  When any number of [GET /:code] requests run
    concurrently, in any interleaving of their statements, each with a key
    (free of zero bytes) that is the alias or short code of one record [r]
    and of no other, and all of them have answered, every one of them was
    redirected to the url of [r] and the counter of [r] has grown by
    exactly the number of requests (the counter having room for them); the
    other records are as they were. *)
Theorem concurrent_visits_all_counted
    (sched : list (nat * Z)) (keys : list string) (db : Db) (r : UrlRow) :
  wf db -> In r (rows db) ->
  Forall (fun key => has_nul key = false /\ only_match key r db) keys ->
  access_count r + Z.of_nat (List.length keys) <= INT_MAX ->
  Forall (fun p => answered p = 1)
         (fst (run_schedule sched (map redirect keys) db)) ->
  Forall (fun p => p = Ret (mkResponse 302 (Location (original_url r))))
         (fst (run_schedule sched (map redirect keys) db))
  /\ urls_id_seq (snd (run_schedule sched (map redirect keys) db))
     = urls_id_seq db
  /\ exists t pre post,
       rows db = (pre ++ r :: post)%list
       /\ Permutation
            (rows (snd (run_schedule sched (map redirect keys) db)))
            (pre ++ visited r (Z.of_nat (List.length keys)) t :: post).
Proof.
  intros Hwf Hin Hkeys Hmax Hdone.
  assert (Hst : Forall (visit_stage db r) (map redirect keys)).
  { apply Forall_map. eapply Forall_impl; [| exact Hkeys].
    intros key [Hnul Hkey]. now constructor. }
  assert (Hzero : zsum (map answered (map redirect keys)) = 0).
  { clear. induction keys as [| k ks IH]; [reflexivity |].
    cbn [map zsum fold_right]. fold (zsum (map answered (map redirect ks))).
    rewrite IH. reflexivity. }
  destruct (visits_invariant sched db r (map redirect keys) db Hwf Hin Hst)
    as [Hst' Hdb].
  { now rewrite length_map. }
  { left. now split. }
  assert (Hall : Forall (fun p => p = Ret (mkResponse 302
                                             (Location (original_url r))))
                        (fst (run_schedule sched (map redirect keys) db))).
  { rewrite Forall_forall in *. intros p Hp.
    specialize (Hst' p Hp). specialize (Hdone p Hp).
    destruct Hst'; [discriminate Hdone | discriminate Hdone | reflexivity]. }
  split; [exact Hall |].
  rewrite (zsum_all_one _ _ Hdone), run_schedule_length, length_map in Hdb.
  destruct (in_split r (rows db) Hin) as (pre & post & Hrows).
  destruct Hdb as [[Hn ->] | [Hn (t & ->)]].
  - split; [reflexivity |].
    exists (last_accessed r), pre, post. split; [exact Hrows |].
    rewrite Hn, Hrows.
    replace (visited r 0 (last_accessed r)) with r; [reflexivity |].
    destruct r. unfold visited. cbn. f_equal. lia.
  - split; [reflexivity |].
    exists t, pre, post. split; [exact Hrows |].
    unfold revisited. cbn [rows].
    pose proof (wf_ids db Hwf) as Hnd. rewrite Hrows in Hnd |- *.
    destruct (filter_id_split pre post r Hnd) as [-> _].
    rewrite <- app_assoc, app_assoc.
    rewrite <- Permutation_cons_append. apply Permutation_middle.
Qed.

Lemma concurrent_visits_all_counted_witness :
  wf (db_a_foo 0) /\ In (row_a_foo 0) (rows (db_a_foo 0))
  /\ Forall (fun key => has_nul key = false
                        /\ only_match key (row_a_foo 0) (db_a_foo 0))
            ["foo"; "cd69b81"]
  /\ access_count (row_a_foo 0)
     + Z.of_nat (List.length ["foo"; "cd69b81"]) <= INT_MAX
  /\ run_schedule [(0%nat, 200); (1%nat, 201); (1%nat, 202); (0%nat, 203)]
                  (map redirect ["foo"; "cd69b81"]) (db_a_foo 0)
     = ([Ret (mkResponse 302 (Location "https://example.com/a"));
         Ret (mkResponse 302 (Location "https://example.com/a"))],
        mkDb [mkRow 1 "https://example.com/a" "cd69b81" (Some "foo") 100 2
                    (Some 203)] 2)
  /\ urls_id_seq
       (snd (run_schedule
               [(0%nat, 200); (1%nat, 201); (1%nat, 202); (0%nat, 203)]
               (map redirect ["foo"; "cd69b81"]) (db_a_foo 0)))
     = urls_id_seq (db_a_foo 0).
Proof.
  assert (Hwf : wf (db_a_foo 0)).
  { apply reachable_wf, db_a_foo_reachable. unfold INT_MAX. lia. }
  assert (Hin : In (row_a_foo 0) (rows (db_a_foo 0)))
    by (simpl; left; reflexivity).
  assert (Honly : forall key, key_of key (row_a_foo 0) ->
                              only_match key (row_a_foo 0) (db_a_foo 0)).
  { intros key Hkey. split; [exact Hin | split; [exact Hkey |]].
    intros x [<- | []] _. reflexivity. }
  assert (Hkeys : Forall (fun key => has_nul key = false
                                     /\ only_match key (row_a_foo 0)
                                                   (db_a_foo 0))
                         ["foo"; "cd69b81"]).
  { repeat constructor; apply Honly; [now left | now right]. }
  assert (Hmax : access_count (row_a_foo 0)
                 + Z.of_nat (List.length ["foo"; "cd69b81"]) <= INT_MAX)
    by (vm_compute; discriminate).
  assert (Hrun : run_schedule
                   [(0%nat, 200); (1%nat, 201); (1%nat, 202); (0%nat, 203)]
                   (map redirect ["foo"; "cd69b81"]) (db_a_foo 0)
                 = ([Ret (mkResponse 302 (Location "https://example.com/a"));
                     Ret (mkResponse 302 (Location "https://example.com/a"))],
                    mkDb [mkRow 1 "https://example.com/a" "cd69b81"
                                (Some "foo") 100 2 (Some 203)] 2))
    by (vm_compute; reflexivity).
  split; [exact Hwf | split; [exact Hin | split; [exact Hkeys |]]].
  split; [exact Hmax | split; [exact Hrun |]].
  refine (proj1 (proj2 (concurrent_visits_all_counted _ _ (db_a_foo 0) _
                          Hwf Hin Hkeys Hmax _))).
  rewrite Hrun. repeat constructor.
Defined.

(** ** Create, visit, read the statistics *)


Lemma alias_is_false_iff (a : string) (l : list UrlRow) :
  (forall r, In r l -> alias_is a r = false) <-> ~ In a (aliases l).
Proof.
  unfold aliases. rewrite in_flat_map. split.
  - intros H (r & Hr & Ha). specialize (H r Hr). unfold alias_is in H.
    destruct (alias r) as [x |]; [| contradiction].
    destruct Ha as [-> | []]. now rewrite String.eqb_refl in H.
  - intros H r Hr. unfold alias_is.
    destruct (alias r) as [x |] eqn:E; [| reflexivity].
    apply String.eqb_neq. intros ->. apply H. exists r.
    split; [exact Hr |]. rewrite E. now left.
Qed.

Lemma hex_digit_is_hex (n : Z) : is_hex_digit (MD5.hex_digit n) = true.
Proof.
  unfold MD5.hex_digit, is_hex_digit.
  destruct (nth_in_or_default (Z.to_nat n)
              (list_ascii_of_string "0123456789abcdef") "0"%char)
    as [Hin | ->]; [| reflexivity].
  apply existsb_exists. eexists. split; [exact Hin | apply Ascii.eqb_refl].
Qed.

Lemma hex_all_hex (bs : list Z) :
  Forall (fun c => is_hex_digit c = true) (list_ascii_of_string (MD5.hex bs)).
Proof.
  induction bs as [| b bs IH]; cbn [MD5.hex list_ascii_of_string];
    repeat constructor; auto using hex_digit_is_hex.
Qed.

Lemma substring_Forall (P : ascii -> Prop) (s : string) (n m : nat) :
  Forall P (list_ascii_of_string s) ->
  Forall P (list_ascii_of_string (String.substring n m s)).
Proof.
  revert n m. induction s as [| c s IH]; intros n m Hs.
  - destruct n, m; constructor.
  - inversion Hs as [| ? ? Hc Hs']; subst.
    destruct n as [| n]; destruct m as [| m];
      cbn [String.substring list_ascii_of_string]; try constructor; auto.
Qed.









(** X6: the path handed out leads back to the url.  After [POST /shorten]
    answered 201 with a path, and unless an older record has that path as
    its alias or short code, [GET /:code] on the path redirects to the
    submitted url and marks the first visit of the new record, leaving the
    older records as they were. *)
Theorem created_path_resolves
    (req : ShortenReq) (now now' : Z) (db db1 : Db) (resp : Response) :
  wf db ->
  run (shorten req) now db = (Ok resp, db1) -> status resp = 201 ->
  (forall r, In r (rows db) ->
     ~ key_of (or_else (query_alias req)
                       (generateShortCode (body_url req) None)) r) ->
  resp = created req (or_else (query_alias req)
                              (generateShortCode (body_url req) None))
  /\ run (redirect (or_else (query_alias req)
                            (generateShortCode (body_url req) None)))
         now' db1
     = (Ok (mkResponse 302 (Location (body_url req))),
        mkDb (rows db ++
                [mkRow (urls_id_seq db) (body_url req)
                       (generateShortCode (body_url req) None)
                       (or_null (query_alias req)) now 1 (Some now')])
             (urls_id_seq db + 1)).
Proof.
  intros Hwf Hrun Hstatus Hfree.
  assert (Hwf1 : wf db1).
  { change db1 with (snd (Ok resp, db1)). rewrite <- Hrun.
    now apply wf_shorten. }
  destruct (shorten_outcomes req now db)
    as [(r & _ & Hrun') | [(_ & a' & r & _ & _ & Hrun')
                          | [(_ & _ & _ & Hrun') | (_ & Hrun')]]];
    rewrite Hrun' in Hrun;
    try (injection Hrun as <- <-; cbn in Hstatus; lia).
  unfold insert_outcome in Hrun.
  destruct (insert_url_cases (body_url req)
              (generateShortCode (body_url req) None)
              (or_null (query_alias req)) now db)
    as [(e & db' & Hout & _)
       | (Hout & _ & _ & _ & _ & Halias & _ & Hnulc)];
    rewrite Hout in Hrun; injection Hrun as <- <-;
    [cbn in Hstatus; lia |].
  split; [reflexivity |].
  assert (Hnul : has_nul (or_else (query_alias req)
                            (generateShortCode (body_url req) None)) = false).
  { destruct (query_alias req) as [[| c s] |]; cbn [or_else or_null] in *;
      [exact Hnulc | | exact Hnulc].
    now apply (Halias (String c s)). }
  set (path := or_else (query_alias req)
                       (generateShortCode (body_url req) None)) in *.
  set (r := mkRow (urls_id_seq db) (body_url req)
                  (generateShortCode (body_url req) None)
                  (or_null (query_alias req)) now 0 None) in *.
  assert (Hkey : key_of path r).
  { unfold key_of, path. cbn [alias short_code r].
    destruct (query_alias req) as [[| c s] |]; cbn [or_else or_null];
      [now right | now left | now right]. }
  assert (Hfirst : first_match path (mkDb (rows db ++ [r]) (urls_id_seq db + 1))
                   = Some r).
  { unfold first_match. cbn [rows]. rewrite find_app_none.
    - apply key_of_spec in Hkey. now rewrite Hkey.
    - now apply first_match_none. }
  rewrite run_redirect, Hnul, Hfirst.
  rewrite (update_access_ok now' _ (rows db) [] r (wf_ids _ Hwf1) eq_refl);
    [reflexivity | cbn; unfold INT_MAX; lia].
Qed.

Lemma created_path_resolves_witness :
  wf empty_db
  /\ run (shorten req_a_foo) 100 empty_db
     = (Ok (created req_a_foo "foo"),
        mkDb [mkRow 1 "https://example.com/a" "cd69b81" (Some "foo")
                    100 0 None] 2)
  /\ status (created req_a_foo "foo") = 201
  /\ run (redirect "foo") 200
         (mkDb [mkRow 1 "https://example.com/a" "cd69b81" (Some "foo")
                      100 0 None] 2)
     = (Ok (mkResponse 302 (Location "https://example.com/a")),
        mkDb [mkRow 1 "https://example.com/a" "cd69b81" (Some "foo")
                    100 1 (Some 200)] 2).
Proof.
  assert (Hrun : run (shorten req_a_foo) 100 empty_db
                 = (Ok (created req_a_foo "foo"),
                    mkDb [mkRow 1 "https://example.com/a" "cd69b81"
                                (Some "foo") 100 0 None] 2))
    by (vm_compute; reflexivity).
  assert (Hfree : forall r, In r (rows empty_db) ->
            ~ key_of (or_else (query_alias req_a_foo)
                        (generateShortCode (body_url req_a_foo) None)) r)
    by (intros r []).
  split; [exact wf_empty | split; [exact Hrun | split; [reflexivity |]]].
  exact (proj2 (created_path_resolves req_a_foo 100 200 empty_db _ _
                  wf_empty Hrun eq_refl Hfree)).
Defined.

(** X7: the statistics show the visit.  After [GET /:code] has redirected
    a key that is the alias or short code of one record and of no other,
    the redirect went to the url of that record, and [GET /stats/:code] on
    the same key reports that record, its counter one higher than before
    and the time of that visit as its last access; reading the statistics
    changes nothing. *)
Theorem stats_after_redirect
    (key : string) (now now' : Z) (db db1 : Db) (url : string) (r : UrlRow) :
  wf db -> only_match key r db ->
  run (redirect key) now db = (Ok (mkResponse 302 (Location url)), db1) ->
  url = original_url r
  /\ run (stats key) now' db1
     = (Ok (mkResponse 200
              (StatsBody
                 (mkStats (original_url r) (short_code r) (alias r)
                          (created_at r) (access_count r + 1) (Some now)))),
        db1).
Proof.
  intros Hwf Honly Hrun. rewrite run_redirect in Hrun.
  destruct (has_nul key) eqn:Hnul; [discriminate |].
  pose proof Honly as (Hin & Hkey & Huniq).
  rewrite (first_match_unique key db r Hin Hkey Huniq) in Hrun.
  destruct (Z_lt_le_dec (access_count r) INT_MAX) as [Hlt | Hge].
  - rewrite (update_access_visit now db db r 0 Hwf Hin) in Hrun;
      [| left; now split | lia].
    injection Hrun as <- <-. split; [reflexivity |].
    rewrite run_stats, Hnul, (first_match_revisited key db r _ _ Honly).
    reflexivity.
  - rewrite (update_access_overflow now db r Hin Hge) in Hrun. discriminate.
Qed.

Lemma stats_after_redirect_witness :
  wf db_a /\ only_match "cd69b81" (row_a_visited 0) db_a
  /\ run (redirect "cd69b81") 200 db_a
     = (Ok (mkResponse 302 (Location "https://example.com/a")), db_visited 1)
  /\ "https://example.com/a" = original_url (row_a_visited 0)
  /\ run (stats "cd69b81") 250 (db_visited 1)
     = (Ok (mkResponse 200
              (StatsBody
                 (mkStats "https://example.com/a" "cd69b81" None 100 1
                          (Some 200)))),
        db_visited 1).
Proof.
  assert (Hwf : wf db_a).
  { apply reachable_wf. apply (db_visited_reachable 0). unfold INT_MAX. lia. }
  assert (Honly : only_match "cd69b81" (row_a_visited 0) db_a).
  { split; [now left | split; [now right |]].
    intros x [<- | []] _. reflexivity. }
  assert (Hrun : run (redirect "cd69b81") 200 db_a
                 = (Ok (mkResponse 302 (Location "https://example.com/a")),
                    db_visited 1))
    by (vm_compute; reflexivity).
  split; [exact Hwf | split; [exact Honly | split; [exact Hrun |]]].
  exact (stats_after_redirect "cd69b81" 200 250 db_a _ _ (row_a_visited 0)
           Hwf Honly Hrun).
Defined.

(** ** The alphabet of the short codes *)

(** X8: a short code is made of the characters [0-9a-f] only, whatever the
    url and the length asked for, and with the default length it fits the
    [VARCHAR(10)] column it is stored in. *)
Theorem short_code_is_hex (url : string) (len : option Z) :
  Forall (fun c => is_hex_digit c = true)
         (list_ascii_of_string (generateShortCode url len))
  /\ (String.length (generateShortCode url None) <= 10)%nat.
Proof.
  split.
  - unfold generateShortCode, js_substring, Crypto.digest_hex.
    apply substring_Forall, hex_all_hex.
  - apply Nat2Z.inj_le.
    change (generateShortCode url None) with (generateShortCode url (Some 7)).
    rewrite generateShortCode_length. cbn. lia.
Qed.

(** ** Two urls with one short code *)

Lemma shorten_code_taken (req : ShortenReq) (now : Z) (db : Db) (r : UrlRow) :
  In r (rows db) -> short_code r = generateShortCode (body_url req) None ->
  ~ In (body_url req) (map original_url (rows db)) ->
  (forall a, or_null (query_alias req) = Some a ->
     ~ In a (aliases (rows db))) ->
  fst (run (shorten req) now db) = Ok server_error
  /\ rows (snd (run (shorten req) now db)) = rows db.
Proof.
  intros Hr Hcode Hurl Halias.
  assert (Hins : fst (insert_outcome req now db) = Ok server_error
                 /\ rows (snd (insert_outcome req now db)) = rows db).
  { unfold insert_outcome.
    destruct (insert_url_cases (body_url req)
                (generateShortCode (body_url req) None)
                (or_null (query_alias req)) now db)
      as [(e & db' & -> & Hrows & _) | (_ & _ & _ & _ & Hfree & _)].
    - now split.
    - exfalso. apply Hfree. rewrite <- Hcode. now apply in_map. }
  rewrite run_shorten.
  destruct (has_nul (body_url req)); [now split |].
  apply first_for_url_none in Hurl. rewrite Hurl.
  destruct (or_null (query_alias req)) as [a |] eqn:Ea; [| exact Hins].
  destruct (has_nul a); [now split |].
  destruct (find (alias_is a) (rows db)) as [x |] eqn:E; [| exact Hins].
  exfalso. apply find_some in E as [Hx Hb].
  specialize (Halias a eq_refl). rewrite <- alias_is_false_iff in Halias.
  rewrite (Halias x Hx) in Hb. discriminate.
Qed.

(** X9: a url whose short code is already the short code of a stored
    record of another url is never stored.  With no record of its own and
    an alias that is free (or none), every [POST /shorten] for it is
    answered 500 "Server error", however often it is repeated, and the
    records stay as they are. *)
Theorem colliding_url_is_never_stored
    (req : ShortenReq) (times : list Z) (db : Db) (r : UrlRow) :
  In r (rows db) -> short_code r = generateShortCode (body_url req) None ->
  ~ In (body_url req) (map original_url (rows db)) ->
  (forall a, or_null (query_alias req) = Some a ->
     ~ In a (aliases (rows db))) ->
  Forall (fun resp => resp = Ok server_error)
         (fst (serve_all (map (fun t => (PostShorten req, t)) times) db))
  /\ rows (snd (serve_all (map (fun t => (PostShorten req, t)) times) db))
     = rows db.
Proof.
  revert db. induction times as [| t times IH]; intros db Hr Hcode Hurl Halias.
  - cbn. split; [constructor | reflexivity].
  - cbn [map serve_all handler].
    destruct (shorten_code_taken req t db r Hr Hcode Hurl Halias)
      as [Hresp Hrows].
    destruct (run (shorten req) t db) as [resp db1]. cbn [fst snd] in *.
    assert (Hr1 : In r (rows db1)) by now rewrite Hrows.
    assert (Hurl1 : ~ In (body_url req) (map original_url (rows db1)))
      by now rewrite Hrows.
    assert (Halias1 : forall a, or_null (query_alias req) = Some a ->
                                ~ In a (aliases (rows db1)))
      by now rewrite Hrows.
    destruct (IH db1 Hr1 Hcode Hurl1 Halias1) as [Hall Hrows'].
    destruct (serve_all _ db1) as [resps db2]. cbn [fst snd] in *.
    split; [now constructor | congruence].
Qed.

Lemma colliding_url_is_never_stored_witness :
  run (shorten req_1548) 100 empty_db
  = (Ok (created req_1548 "7f17b0c"), db_1548)
  /\ In (mkRow 1 "https://example.com/1548" "7f17b0c" None 100 0 None)
        (rows db_1548)
  /\ "7f17b0c" = generateShortCode (body_url req_2133) None
  /\ ~ In (body_url req_2133) (map original_url (rows db_1548))
  /\ Forall (fun resp => resp = Ok server_error)
            (fst (serve_all
                    (map (fun t => (PostShorten req_2133, t)) [101; 102; 103])
                    db_1548))
  /\ rows (snd (serve_all
                  (map (fun t => (PostShorten req_2133, t)) [101; 102; 103])
                  db_1548))
     = rows db_1548.
Proof.
  assert (Hin : In (mkRow 1 "https://example.com/1548" "7f17b0c" None 100 0 None)
                   (rows db_1548)) by (simpl; left; reflexivity).
  assert (Hcode : short_code
                    (mkRow 1 "https://example.com/1548" "7f17b0c" None 100 0
                           None)
                  = generateShortCode (body_url req_2133) None)
    by (vm_compute; reflexivity).
  assert (Hurl : ~ In (body_url req_2133) (map original_url (rows db_1548)))
    by (simpl; intros [H | []]; discriminate H).
  assert (Halias : forall a, or_null (query_alias req_2133) = Some a ->
                             ~ In a (aliases (rows db_1548)))
    by (intros a H; discriminate H).
  split; [vm_compute; reflexivity |].
  split; [exact Hin | split; [exact Hcode | split; [exact Hurl |]]].
  exact (colliding_url_is_never_stored req_2133 [101; 102; 103] db_1548 _
           Hin Hcode Hurl Halias).
Defined.

(** ** Which answers write *)

(** X10: every request is answered, with one of the statuses 200, 201,
    302, 404, 409 and 500; after 200, 404 or 409 the store is exactly as
    before, and after any answer other than 201 and 302 (so after 500 too)
    its records are. *)
Theorem only_created_and_redirect_write (rq : Request) (now : Z) (db : Db) :
  wf db ->
  exists resp,
    fst (run (handler rq) now db) = Ok resp
    /\ In (status resp) [200; 201; 302; 404; 409; 500]
    /\ (In (status resp) [200; 404; 409] ->
        snd (run (handler rq) now db) = db)
    /\ (status resp <> 201 -> status resp <> 302 ->
        rows (snd (run (handler rq) now db)) = rows db).
Proof.
  intros Hwf. destruct rq as [req | code | code]; cbn [handler].
  - destruct (shorten_outcomes req now db)
      as [(r & _ & ->) | [(_ & a & r & _ & _ & ->)
                         | [(_ & _ & _ & ->) | (_ & ->)]]].
    + eexists. split; [reflexivity |]. cbn. tauto.
    + eexists. split; [reflexivity |]. cbn. tauto.
    + destruct (insert_outcome_cases req now db)
        as [(rs & _ & ->) | (db' & -> & Hrows)];
        (eexists; split; [reflexivity |]); cbn; repeat split;
        try tauto; try lia;
        try (intros [H | [H | [H | []]]]; discriminate H).
    + eexists. split; [reflexivity |]. cbn. repeat split; try tauto;
        try (intros [H | [H | [H | []]]]; discriminate H).
  - destruct (redirect_outcomes code now db Hwf)
      as [(_ & _ & ->) | [(r & _ & _ & ->)
                         | [(r & pre & post & _ & _ & _ & _ & ->)
                           | (_ & ->)]]];
      (eexists; split; [reflexivity |]); cbn; repeat split;
      try tauto; try lia;
      try (intros [H | [H | [H | []]]]; discriminate H).
  - rewrite run_stats. cbn [fst snd].
    destruct (has_nul code);
      [| destruct (first_match code db)];
      (eexists; split; [reflexivity |]); cbn; tauto.
Qed.

Lemma only_created_and_redirect_write_witness :
  wf (db_visited 2147483647)
  /\ exists resp,
       fst (run (handler (GetCode "cd69b81")) 300 (db_visited 2147483647))
       = Ok resp
       /\ In (status resp) [200; 201; 302; 404; 409; 500]
       /\ (In (status resp) [200; 404; 409] ->
           snd (run (handler (GetCode "cd69b81")) 300
                    (db_visited 2147483647))
           = db_visited 2147483647)
       /\ (status resp <> 201 -> status resp <> 302 ->
           rows (snd (run (handler (GetCode "cd69b81")) 300
                          (db_visited 2147483647)))
           = rows (db_visited 2147483647)).
Proof.
  assert (Hwf : wf (db_visited 2147483647)).
  { apply reachable_wf, db_visited_reachable. unfold INT_MAX. lia. }
  split; [exact Hwf |].
  exact (only_created_and_redirect_write (GetCode "cd69b81") 300 _ Hwf).
Defined.

(** ** The routes *)

(** X11: [GET /health] never reaches the health handler.  The route
    [/:code] is registered before [/health] and takes every [GET] of a
    path of one segment, so such a request is looked up as a short code or
    alias; no method and path at all are dispatched to the health
    endpoint.  Paths [/stats/x] go to the statistics and [POST /shorten]
    to the shortening. *)
Theorem health_route_is_shadowed :
  (forall m path ep ps, dispatch m path = Some (ep, ps) ->
                        ep <> HealthEndpoint)
  /\ (forall seg, dispatch GET [seg] = Some (CodeEndpoint, [seg]))
  /\ (forall seg, dispatch GET ["stats"; seg] = Some (StatsEndpoint, [seg]))
  /\ dispatch POST ["shorten"] = Some (ShortenEndpoint, [])
  /\ (forall now db,
        (forall r, In r (rows db) -> ~ key_of "health" r) ->
        dispatch GET ["health"] = Some (CodeEndpoint, ["health"])
        /\ run (redirect "health") now db
           = (Ok (not_found "Short URL not found"), db)).
Proof.
  split; [| split; [| split; [| split]]].
  - intros m path ep ps. unfold dispatch, routes.
    destruct m; cbn [first_route method_eqb].
    + (* GET *)
      destruct path as [| s1 [| s2 [| s3 path]]]; cbn [match_path];
        repeat match goal with
               | |- context [if ?b then _ else _] => destruct b
               end;
        cbn; try discriminate; intros [= <- <-]; discriminate.
    + (* POST *)
      destruct path as [| s1 [| s2 path]]; cbn [match_path];
        repeat match goal with
               | |- context [if ?b then _ else _] => destruct b
               end;
        cbn; try discriminate; intros [= <- <-]; discriminate.
  - reflexivity.
  - reflexivity.
  - reflexivity.
  - intros now db Hnone. split; [reflexivity |].
    apply first_match_none in Hnone. now rewrite run_redirect, Hnone.
Qed.

(** ** Concurrent submissions of one url *)

Lemma filter_url_absent (url : string) (rs : list UrlRow) :
  ~ In url (map original_url rs) ->
  filter (fun r => String.eqb (original_url r) url) rs = [].
Proof.
  induction rs as [| r rs IH]; intros Hnot; [reflexivity |].
  cbn [filter]. destruct (String.eqb (original_url r) url) eqn:E.
  - exfalso. apply Hnot. apply String.eqb_eq in E. now left.
  - apply IH. intros Hin. apply Hnot. now right.
Qed.

Lemma url_count_unique (url : string) (db : Db) :
  NoDup (map original_url (rows db)) -> url_count url db <= 1.
Proof.
  unfold url_count. destruct db as [rs sq]. cbn [rows].
  induction rs as [| r rs IH]; intros Hnd; [cbn; lia |].
  inversion Hnd as [| ? ? Hr Hnd']; subst. cbn [filter].
  destruct (String.eqb (original_url r) url) eqn:E; [| now apply IH].
  apply String.eqb_eq in E. rewrite filter_url_absent; [cbn; lia |].
  now rewrite <- E.
Qed.

Lemma url_count_same_rows (url : string) (db db' : Db) :
  rows db' = rows db -> url_count url db' = url_count url db.
Proof. unfold url_count. now intros ->. Qed.

(** One statement of a [POST /shorten] for [req]: the records of its url
    grow by one exactly when the handler turns to the answer 201. *)
Lemma shorten_point_step_count (req : ShortenReq) (p : Prog Response)
    (now : Z) (db : Db) :
  shorten_point req p ->
  answered_created (fst (step p now db))
  + url_count (body_url req) db
  = answered_created p + url_count (body_url req) (snd (step p now db)).
Proof.
  intros [| a Ha | | r].
  - rewrite step_shorten. cbn [fst snd].
    destruct (has_nul (body_url req)); [reflexivity |].
    destruct (select_code_alias_by_url (body_url req) db) as [| [c al] ?].
    + now destruct (or_null (query_alias req)).
    + reflexivity.
  - rewrite step_shorten_at_alias. cbn [fst snd].
    destruct (has_nul a); [reflexivity |].
    now destruct (select_id_by_alias a db).
  - rewrite step_shorten_at_insert.
    destruct (insert_url_cases (body_url req)
                (generateShortCode (body_url req) None)
                (or_null (query_alias req)) now db)
      as [(e & db' & -> & Hrows & _) | (-> & _)]; cbn [fst snd].
    + now rewrite (url_count_same_rows _ db db' Hrows).
    + unfold url_count. cbn [rows answered_created created status].
      rewrite filter_app, length_app. cbn [filter original_url].
      rewrite String.eqb_refl. cbn [List.length Z.eqb Pos.eqb].
      unfold shorten_at_insert. cbn [try_catch bind client_query answered_created].
      lia.
  - reflexivity.
Qed.

Lemma submissions_invariant (sched : list (nat * Z)) (req : ShortenReq)
    (clients : list (Prog Response)) (db : Db) :
  Forall (shorten_point req) clients ->
  zsum (map answered_created (fst (run_schedule sched clients db)))
  + url_count (body_url req) db
  = zsum (map answered_created clients)
    + url_count (body_url req) (snd (run_schedule sched clients db)).
Proof.
  revert clients db.
  induction sched as [| [c now] sched IH]; intros clients db Hst;
    [reflexivity |].
  rewrite run_schedule_cons.
  destruct (nth_error clients c) as [p |] eqn:E; [| now apply IH].
  assert (Hp : shorten_point req p).
  { rewrite Forall_forall in Hst. apply Hst. eapply nth_error_In, E. }
  pose proof (shorten_point_step_count req p now db Hp) as Hstep.
  specialize (IH (set_nth c (fst (step p now db)) clients)
                 (snd (step p now db))).
  rewrite (zsum_set_nth _ _ _ _ _ E) in IH.
  assert (Hst' : Forall (shorten_point req)
                        (set_nth c (fst (step p now db)) clients))
    by (apply Forall_set_nth; [exact Hst | now apply shorten_point_step]).
  specialize (IH Hst'). lia.
Qed.

(** X12: concurrent identical submissions.  When any number of
    [POST /shorten] requests for one url run concurrently, in any
    interleaving of their statements, from a store that satisfies the
    constraints of the table and whose short codes are the codes of their
    urls: the url ends up with at most one record, the number of requests
    answered 201 is exactly the number of records of the url that were
    added, so at most one request is answered 201, and none is if the url
    was stored before. *)
Theorem concurrent_identical_submissions
    (sched : list (nat * Z)) (n : nat) (req : ShortenReq) (db : Db) :
  schema_ok db -> coded db ->
  zsum (map answered_created
            (fst (run_schedule sched (repeat (shorten req) n) db)))
  = url_count (body_url req)
              (snd (run_schedule sched (repeat (shorten req) n) db))
    - url_count (body_url req) db
  /\ url_count (body_url req)
               (snd (run_schedule sched (repeat (shorten req) n) db)) <= 1
  /\ zsum (map answered_created
               (fst (run_schedule sched (repeat (shorten req) n) db)))
     <= 1 - url_count (body_url req) db.
Proof.
  intros Hok Hc.
  assert (Hst : Forall (shorten_point req) (repeat (shorten req) n)).
  { apply Forall_forall. intros p Hp. apply repeat_spec in Hp. subst p.
    constructor. }
  pose proof (submissions_invariant sched req _ db Hst) as Hinv.
  assert (Hzero : zsum (map answered_created (repeat (shorten req) n)) = 0).
  { clear. induction n as [| n IH]; [reflexivity |].
    cbn [repeat map]. unfold zsum in *. cbn [fold_right]. rewrite IH.
    reflexivity. }
  assert (Hone : url_count (body_url req)
                   (snd (run_schedule sched (repeat (shorten req) n) db)) <= 1).
  { apply url_count_unique, coded_urls_unique.
    - apply schedule_keeps_coded; [| exact Hc].
      eapply Forall_impl; [| exact Hst]. intros p Hp. now apply (hp_shorten req).
    - apply ok_codes. clear Hinv Hst Hzero Hc. revert Hok.
      generalize (repeat (shorten req) n). intros clients. revert clients db.
      induction sched as [| [c now] sched IH]; intros clients db Hok;
        [exact Hok |].
      rewrite run_schedule_cons.
      destruct (nth_error clients c) as [p |]; [| now apply IH].
      apply IH. now apply step_schema_ok. }
  rewrite Hzero in Hinv. repeat split; lia.
Qed.

Lemma concurrent_identical_submissions_witness :
  schema_ok empty_db /\ coded empty_db
  /\ run_schedule [(0%nat, 97); (1%nat, 98); (2%nat, 99); (1%nat, 100);
                   (0%nat, 101); (2%nat, 102)]
                  (repeat (shorten req_a) 3) empty_db
     = ([Ret server_error; Ret (created req_a "cd69b81"); Ret server_error],
        mkDb [mkRow 1 "https://example.com/a" "cd69b81" None 100 0 None] 4)
  /\ zsum (map answered_created
               (fst (run_schedule
                       [(0%nat, 97); (1%nat, 98); (2%nat, 99); (1%nat, 100);
                        (0%nat, 101); (2%nat, 102)]
                       (repeat (shorten req_a) 3) empty_db)))
     <= 1 - url_count (body_url req_a) empty_db.
Proof.
  assert (Hc : coded empty_db) by constructor.
  split; [exact schema_ok_empty | split; [exact Hc |]].
  split; [vm_compute; reflexivity |].
  exact (proj2 (proj2 (concurrent_identical_submissions _ 3 req_a empty_db
                         schema_ok_empty Hc))).
Defined.

(** ** Codes of different lengths *)

Lemma substring_prefix_mono (s : string) (a b : nat) :
  (a <= b)%nat ->
  String.prefix (String.substring 0 a s) (String.substring 0 b s) = true.
Proof.
  revert a b. induction s as [| c s IH]; intros [| a] [| b] Hab;
    cbn [String.substring String.prefix]; try reflexivity; try lia.
  destruct (ascii_dec c c) as [_ | Hne]; [| contradiction].
  apply IH. lia.
Qed.

(** X13: the length only cuts the code: for lengths [n <= m], the code of
    length [n] of a url is the beginning of its code of length [m]. *)
Theorem shorter_code_is_prefix (url : string) (n m : Z) :
  n <= m ->
  String.prefix (generateShortCode url (Some n))
                (generateShortCode url (Some m)) = true.
Proof.
  intros Hnm. unfold generateShortCode. rewrite !js_substring_prefix.
  apply substring_prefix_mono. lia.
Qed.

Lemma shorter_code_is_prefix_witness :
  7 <= 10
  /\ generateShortCode "https://example.com/a" (Some 7) = "cd69b81"
  /\ generateShortCode "https://example.com/a" (Some 10) = "cd69b81ea0"
  /\ String.prefix (generateShortCode "https://example.com/a" (Some 7))
                   (generateShortCode "https://example.com/a" (Some 10))
     = true.
Proof.
  split; [lia |].
  split; [vm_compute; reflexivity | split; [vm_compute; reflexivity |]].
  apply (shorter_code_is_prefix "https://example.com/a" 7 10). lia.
Defined.
